(** * tap-context-got: request normalisation and tap assertions

    A shallow embedding of the two source files of the repository,
    [src/unnamed/part_000] (module [Part000]) and [src/index.js] (module
    [IndexJs]), both exporting the class [TAPContextGot].

    JavaScript values are an inductive type, objects are finite maps from
    property names to values, and every call that leaves the class (the [got]
    transport, a multipart handle, a body-producing function, [JSON], the
    hooks of the integration instance and the reporting primitives of tap) is
    a [call] answered by a host.  A run threads the host's state and records
    each call together with its completion, so that the order and the number
    of the calls are visible in the trace. *)

From stdpp Require Import gmap strings list fin_maps pretty.

Set Warnings "-register-all".
Open Scope string_scope.

(** ** JavaScript values *)

Module Js.

(** Functions, multipart handles and host objects ([Map], [CookieJar],
    buffers) are opaque: they are known by a name or a number and what they
    do is decided by the host.  Numbers are integers: [VNum n] is the Number
    a literal [n] denotes, the double nearest to [n].  A property read under
    a fixed name is an own property; a key computed at run time is looked up
    through [Object.prototype] as well ([member]). *)
Inductive value : Type :=
| VUndefined
| VNull
| VBool (b : bool)
| VNum (n : Z)
| VStr (s : string)
| VObject (props : gmap string value)
| VFunction (f : string)
| VMultipart (h : string)
| VRegExp (source flags : string)
| VError (name message : string)
| VHost (class : string) (id : nat).

Abbreviation obj := (gmap string value).

(** How an evaluation ends: with a value, or with a thrown value.  For an
    [async] function these are a promise that resolves or rejects. *)
Inductive completion (A : Type) : Type :=
| Normal (a : A)
| Throw (e : value).
Arguments Normal {A} a.
Arguments Throw {A} e.

(** ToBoolean *)
Definition truthy (v : value) : bool :=
  match v with
  | VUndefined | VNull => false
  | VBool b => b
  | VNum n => negb (n =? 0)%Z
  | VStr s => negb (String.eqb s "")
  | _ => true
  end.

(** The double nearest to a positive integer, ties to the even mantissa:
    the Number a literal of that many digits denotes.  It is the integer
    itself up to 2^53. *)
Definition nearest_double (n : Z) : Z :=
  let e := (Z.log2 n - 52)%Z in
  if (e <=? 0)%Z then n
  else
    let q := Z.shiftr n e in
    let r := Z.land n (Z.ones e) in
    let half := Z.shiftl 1 (e - 1) in
    let m := if (half <? r)%Z || ((r =? half)%Z && Z.odd q) then (q + 1)%Z else q in
    Z.shiftl m e.

(** Whether the integer [c] is read back as the double [d]: [c] lies in the
    rounding interval of [d], whose ends count when the mantissa is even. *)
Definition reads_as (d c : Z) : bool :=
  let e := (Z.log2 d - 52)%Z in
  let m := Z.shiftr d e in
  let up := Z.shiftl 2 e in
  let down := if (m =? Z.shiftl 1 52)%Z then Z.shiftl 1 e else Z.shiftl 2 e in
  let low := (4 * d - down)%Z in
  let high := (4 * d + up)%Z in
  if Z.even m
  then (low <=? 4 * c)%Z && (4 * c <=? high)%Z
  else (low <? 4 * c)%Z && (4 * c <? high)%Z.

(** The multiple of [10^j] nearest to [d], the even one of two. *)
Definition nearest_multiple (d : Z) (j : nat) : Z :=
  let p := (10 ^ Z.of_nat j)%Z in
  let below := (d / p)%Z in
  let twice := (2 * (d - below * p))%Z in
  if (twice <? p)%Z || ((twice =? p)%Z && Z.even below)
  then (below * p)%Z else ((below + 1) * p)%Z.

(** The integer of the fewest significant digits that reads back as [d],
    looked for with [j] trailing zeros and then with fewer. *)
Fixpoint shortest (d : Z) (j : nat) : Z :=
  match j with
  | O => d
  | S j' =>
      let c := nearest_multiple d j in
      if reads_as d c then c else shortest d j'
  end.

Fixpoint strip_zeros (fuel : nat) (s : Z) : Z :=
  match fuel with
  | O => s
  | S fuel' => if (s mod 10 =? 0)%Z then strip_zeros fuel' (s / 10)%Z else s
  end.

(** Number::toString of a positive integer: its decimal digits up to 2^53;
    above, the fewest digits that read back as the same double, followed by
    zeros below 10^21 and in exponent form from there on. *)
Definition positive_to_string (n : Z) : string :=
  if (n <=? 9007199254740992)%Z then pretty n
  else
    let d := nearest_double n in
    if (1024 <=? Z.log2 d)%Z then "Infinity"
    else
      let c := shortest d (String.length (pretty d)) in
      let digits := String.length (pretty c) in
      if (digits <=? 21)%nat then pretty c
      else
        match pretty (strip_zeros digits c) with
        | String first EmptyString => String first ("e+" ++ pretty (digits - 1)%nat)
        | String first rest => String first ("." ++ rest ++ "e+" ++ pretty (digits - 1)%nat)
        | EmptyString => ""
        end.

Definition number_to_string (n : Z) : string :=
  match n with
  | Z0 => "0"
  | Zpos _ => positive_to_string n
  | Zneg p => "-" ++ positive_to_string (Zpos p)
  end.

(** ToString, as a template literal and a computed property key apply it.
    Objects print the way the built-in [toString] prints them. *)
Definition ToString (v : value) : string :=
  match v with
  | VUndefined => "undefined"
  | VNull => "null"
  | VBool true => "true"
  | VBool false => "false"
  | VNum n => number_to_string n
  | VStr s => s
  | VObject _ => "[object Object]"
  | VFunction f => "function " ++ f ++ "() { [native code] }"
  | VMultipart _ => "[object Object]"
  | VRegExp source flags => "/" ++ source ++ "/" ++ flags
  | VError name message => name ++ ": " ++ message
  | VHost class _ => "[object " ++ class ++ "]"
  end.

(** The characters of a string as its index properties. *)
Fixpoint string_props (i : nat) (s : string) : obj :=
  match s with
  | EmptyString => ∅
  | String c rest => <[pretty i := VStr (String c EmptyString)]> (string_props (S i) rest)
  end.

(** An array, known by its elements: the object of its index properties. *)
Definition array_of (elements : list value) : value :=
  VObject (list_to_map (imap (fun i v => (pretty i, v)) elements)).

(** The own enumerable properties of a value: what [{...v}] copies. *)
Definition own_props (v : value) : obj :=
  match v with
  | VObject props => props
  | VStr s => string_props 0 s
  | _ => ∅
  end.

(** [o.k] read off the own properties of an object: [undefined] when
    there is none.  It is the reading of the names the code spells out
    ([cache], [body], [json], [headers], ...), none of which
    [Object.prototype] has. *)
Definition get (o : obj) (k : string) : value := default VUndefined (o !! k).

(** The functions every object inherits from [Object.prototype]. *)
Definition object_methods : list string :=
  ["constructor"; "hasOwnProperty"; "isPrototypeOf"; "propertyIsEnumerable";
   "toLocaleString"; "toString"; "valueOf"; "__defineGetter__"; "__defineSetter__";
   "__lookupGetter__"; "__lookupSetter__"].

(** [Object.prototype[k]] as an object literal inherits it: [constructor]
    is the function [Object], [__proto__] answers the prototype itself. *)
Definition object_prototype (k : string) : value :=
  if String.eqb k "constructor" then VFunction "Object"
  else if String.eqb k "__proto__" then VHost "Object.prototype" 0
  else if bool_decide (k ∈ object_methods) then VFunction k
  else VUndefined.

(** [o[k]] on an object literal, for a key computed at run time: the own
    property, and what [Object.prototype] has under [k] when there is
    none. *)
Definition member (o : obj) (k : string) : value :=
  match o !! k with
  | Some v => v
  | None => object_prototype k
  end.

(** [v.k] on any value; reading a property of [undefined] or [null] throws. *)
Definition get_prop (v : value) (k : string) : completion value :=
  match v with
  | VUndefined | VNull =>
      Throw (VError "TypeError" ("Cannot read properties of " ++ ToString v))
  | VError name message =>
      Normal (if String.eqb k "name" then VStr name
              else if String.eqb k "message" then VStr message
              else VUndefined)
  | VStr s =>
      Normal (if String.eqb k "length" then VNum (Z.of_nat (String.length s))
              else get (own_props v) k)
  | _ => Normal (get (own_props v) k)
  end.

(** [{...base, ...v}]: the properties of [v] are copied over [base]. *)
Definition spread (base : obj) (v : value) : obj := own_props v ∪ base.

(** [v !== false] *)
Definition not_strictly_false (v : value) : bool :=
  match v with
  | VBool false => false
  | _ => true
  end.

(** [left ?? right] *)
Definition nullish_or (left right : value) : value :=
  match left with
  | VUndefined | VNull => right
  | _ => left
  end.

(** [left || right] *)
Definition or_else (left right : value) : value :=
  if truthy left then left else right.

(** What [RegExp.prototype.test] answers for a pattern whose source is a
    literal text, as the three patterns of [httpError] are: whether the text
    occurs in the subject.  Metacharacters are not interpreted. *)
Definition regexp_test (source subject : string) : bool :=
  match String.index 0 source subject with
  | Some _ => true
  | None => false
  end.

End Js.
Export Js.

(** ** Calls to the host *)

(** Everything the class calls and does not define. *)
Inductive call : Type :=
| Invoke (f : string)                        (* f() *)
| MultipartBuffer (h : string)               (* data.buffer() *)
| MultipartGetHeaders (h : string) (chunked : bool)  (* data.getHeaders(chunked) *)
| JSONStringify (v : value)                  (* JSON.stringify(v) *)
| JSONParse (text : value)                   (* JSON.parse(text) *)
| Got (url : string) (options : obj)         (* got(url, options) *)
| GotPost (url : string) (options : obj)     (* got.post(url, options) *)
| GetCookieString (jar url : value)          (* cookieJar.getCookieString(url, cb) *)
| NewMap                                     (* new Map() *)
| NewCookieJar                               (* new CookieJar() *)
| StrictSame (found wanted message extra : value)  (* t.strictSame *)
| Match (found pattern message extra : value)      (* t.match *)
| Error (er message extra : value)                 (* t.error *)
| Rejects (outcome : completion value) (wanted message extra : value). (* t.rejects *)

Definition entry : Type := call * completion value.

(** ** Runs *)

Module Run.
Section Run.
Context {W : Type}.

(** The host's state and the calls made so far, oldest first. *)
Record world : Type := World { trace : list entry; hstate : W }.

Definition M (A : Type) : Type := world -> completion A * world.

Definition ret {A : Type} (a : A) : M A := fun w => (Normal a, w).

Definition bind {A B : Type} (m : M A) (k : A -> M B) : M B :=
  fun w =>
    match m w with
    | (Normal a, w') => k a w'
    | (Throw e, w') => (Throw e, w')
    end.

Definition throw {A : Type} (e : value) : M A := fun w => (Throw e, w).

(** A completion computed without a call, such as a property read. *)
Definition lift {A : Type} (c : completion A) : M A := fun w => (c, w).

(** [try { m } catch (error) { handler error }] *)
Definition try_catch {A : Type} (m : M A) (handler : value -> M A) : M A :=
  fun w =>
    match m w with
    | (Normal a, w') => (Normal a, w')
    | (Throw e, w') => handler e w'
    end.

(** The promise of [m]: how [m] ends, as a value that is not thrown. *)
Definition settle {A : Type} (m : M A) : M (completion A) :=
  fun w => let '(c, w') := m w in (Normal c, w').

Variable host : call -> W -> completion value * W.

(** The host answers [c]; the call and its completion are recorded. *)
Definition perform (c : call) : M value :=
  fun w =>
    let '(r, s') := host c (hstate w) in
    (r, {| trace := trace w ++ [(c, r)]; hstate := s' |}).

(** [f?.()] *)
Definition optional_call (f : value) : M value :=
  match f with
  | VUndefined | VNull => ret VUndefined
  | VFunction name => perform (Invoke name)
  | _ => throw (VError "TypeError" (ToString f ++ " is not a function"))
  end.

End Run.
Arguments world : clear implicits.
Arguments M : clear implicits.
End Run.
Export Run.

Declare Scope run_scope.
Delimit Scope run_scope with run.
Notation "x <- m ;; k" := (bind m (fun x => k))
  (at level 100, m at next level, right associativity) : run_scope.
Notation "m ;;; k" := (bind m (fun _ => k))
  (at level 100, right associativity) : run_scope.
Open Scope run_scope.

(** The calls of a trace, without their completions. *)
Definition calls (t : list entry) : list call := map fst t.

(** ** The integration instance, the context and tap *)

Module Integration.
(** The instance under test, an object the class receives.  [start],
    [stop] and [checkStopped] are [undefined] when the instance has no such
    hook; [instances] is [None] when the instance has no list of
    sub-instances; [members] holds the other properties of the instance, its
    own and those of its class. *)
Record Instance : Type := {
  baseURL : value;
  start : value;
  stop : value;
  checkStopped : value;
  instances : option (list string);
  members : obj;
  defaultInstance : value
}.

(** [integrationInstance[id]]: a property of the instance, and what
    [Object.prototype] has under [id] when the instance has none. *)
Definition lookup (instance : Instance) (id : string) : value :=
  if String.eqb id "baseURL" then baseURL instance
  else if String.eqb id "start" then start instance
  else if String.eqb id "stop" then stop instance
  else if String.eqb id "checkStopped" then checkStopped instance
  else if String.eqb id "instances"
       then match instances instance with
            | Some ids => array_of (map VStr ids)
            | None => VUndefined
            end
  else if String.eqb id "defaultInstance" then defaultInstance instance
  else member (members instance) id.
End Integration.

(** An object of the class, by its fields as the class initialises them.
    [instanceProps] holds the properties the loop of [part_000]'s
    constructor writes on the object, [defaultInstance] the one it sets after
    the loop.  A property written under the name of a member of the class
    ([class_members]) replaces that member on the object: the operations
    below are the class's own, on the fields of the record, and a statement
    about a context that a constructor built is made for sub-instances of
    other names. *)
Record TAPContextGot : Type := {
  httpError : obj;
  genericGotOptions : obj;
  integrationInstance : Integration.Instance;
  instanceProps : obj;
  defaultInstance : value
}.


(** The loop of [part_000]'s constructor over the ids that are left,
    [this[instanceID] = integrationInstance[instanceID]], on the properties
    written so far.  [baseURL] is an accessor of the class without a setter,
    and a class body is strict code: the write under that name throws.  A
    write under any other name is kept under that name, also when it goes to
    a member of the class. *)
Fixpoint copy_instances (integrationInstance : Integration.Instance) (ids : list string)
    (props : obj) : completion obj :=
  match ids with
  | [] => Normal props
  | instanceID :: rest =>
      if String.eqb instanceID "baseURL"
      then Throw (VError "TypeError"
                    "Cannot set property baseURL of #<TAPContextGot> which has only a getter")
      else copy_instances integrationInstance rest
             (<[instanceID := Integration.lookup integrationInstance instanceID]> props)
  end.

(** [get baseURL()] *)
Definition baseURL (this : TAPContextGot) : value :=
  Integration.baseURL (integrationInstance this).

(** The field initialiser of [httpError], the same in both files. *)
Definition httpError_init : obj :=
  <["400" := VRegExp "Response code 400" "u"]>
  (<["404" := VRegExp "Response code 404" "u"]>
  (<["405" := VRegExp "Response code 405" "u"]> ∅)).

(** Modelled from the spec: a running test of tap, "a running test's
    context object ([this.context]) carrying the shared TestContext"; [None]
    is the context of a test nothing was attached to. *)
Record TestCase : Type := { context : option TAPContextGot }.

Definition arg (args : list value) (i : nat) : value := nth i args VUndefined.

(** Whether [v.name] is something to call.  A host object is opaque: the
    host answers for its methods; [undefined] and [null] have none; any other
    value has the method when its property of that name is a function. *)
Definition has_method (v : value) (name : string) : bool :=
  match v with
  | VHost _ _ => true
  | VUndefined | VNull => false
  | _ =>
      match get_prop v name with
      | Normal (VFunction _) => true
      | _ => false
      end
  end.

Section Tap.
Context {W : Type}.

(** The body of an assertion: it gets [this] and its arguments, the
    message and the extra object after the declared ones. *)
Definition assertion : Type := TestCase -> list value -> M W unit.

(** Modelled from the spec: the test framework, which is not part of the
    repository, as what can be registered on it: "[addAssert(name, arity,
    implementation)] to register named assertions; [beforeEach], [teardown]
    lifecycle hooks". *)
Record Tap : Type := {
  asserts : list (string * nat * assertion);
  beforeEach : list (TestCase -> M W TestCase);
  teardown : list (M W unit)
}.

Definition empty_tap : Tap :=
  {| asserts := []; beforeEach := []; teardown := [] |}.

(** [Test.addAssert(name, arity, fn)] *)
Definition addAssert (name : string) (arity : nat) (fn : assertion) (tap : Tap) : Tap :=
  {| asserts := asserts tap ++ [(name, arity, fn)];
     beforeEach := beforeEach tap;
     teardown := teardown tap |}.

(** [tap.beforeEach(fn)] *)
Definition add_beforeEach (fn : TestCase -> M W TestCase) (tap : Tap) : Tap :=
  {| asserts := asserts tap;
     beforeEach := beforeEach tap ++ [fn];
     teardown := teardown tap |}.

(** [tap.teardown(fn)] *)
Definition add_teardown (fn : M W unit) (tap : Tap) : Tap :=
  {| asserts := asserts tap;
     beforeEach := beforeEach tap;
     teardown := teardown tap ++ [fn] |}.

(** Modelled from the spec: [tap.test(name, cb)], the "one-time setup
    call".  tap runs [cb] as a test of its own: when [cb] throws, that test
    fails and what [cb] had not registered yet stays unregistered. *)
Definition tap_test (cb : Tap -> M W Tap) (tap : Tap) : M W Tap :=
  try_catch (cb tap) (fun _ => ret tap).





(** [this.context] inside an assertion, as the receiver of a method
    call: a test without the context has no such method. *)
Definition this_context (this : TestCase) : M W TAPContextGot :=
  match context this with
  | Some ctx => ret ctx
  | None => throw (VError "TypeError" "this.context method is not a function")
  end.

End Tap.
Arguments assertion : clear implicits.
Arguments Tap : clear implicits.

(** ** src/unnamed/part_000 *)

(** The path helpers [runPath], [readdir] and [readFile] call the instance
    and the file system and take no part in a request: they are in the module
    [Files], with a host of their own. *)
Module Part000.
Section Part000.
Context {W : Type} (host : call -> W -> completion value * W).

Local Abbreviation perform := (Run.perform host).

(** [new TAPContextGot(integrationInstance)]: the field initialisers, then
    the body of the constructor. *)
Definition constructor (integrationInstance : Integration.Instance) : M W TAPContextGot :=
  cache <- perform NewMap ;;
  cookieJar <- perform NewCookieJar ;;
  let genericGotOptions : obj :=
    <["cache" := cache]> (<["timeout" := VNum 10000]> (<["cookieJar" := cookieJar]> ∅)) in
  match Integration.instances integrationInstance with
  | None => throw (VError "TypeError" "integrationInstance.instances is not iterable")
  | Some ids =>
      instanceProps <- lift (copy_instances integrationInstance ids ∅) ;;
      ret {| httpError := httpError_init;
             genericGotOptions := genericGotOptions;
             integrationInstance := integrationInstance;
             instanceProps := instanceProps;
             defaultInstance := Integration.defaultInstance integrationInstance |}
  end.

(** [async getCookieString(url)] *)
Definition getCookieString (this : TAPContextGot) (url : value) : M W value :=
  cookieJar <- lift (get_prop (VObject (genericGotOptions this)) "cookieJar") ;;
  match cookieJar with
  | VUndefined | VNull =>
      throw (VError "TypeError" ("Cannot read properties of " ++ ToString cookieJar))
  | _ =>
      if has_method cookieJar "getCookieString"
      then perform (GetCookieString cookieJar url)
      else
        match get_prop cookieJar "getCookieString" with
        | Normal ((VUndefined | VNull) as method) =>
            throw (VError "TypeError"
                     ("Cannot read properties of " ++ ToString method ++ " (reading 'bind')"))
        | _ => throw (VError "TypeError" "cookieJar.getCookieString.bind is not a function")
        end
  end.

(** [api(api, options)] *)
Definition api (this : TAPContextGot) (api options : value) : M W value :=
  perform (Got (ToString (baseURL this) ++ ToString api)
               (spread (spread ∅ (VObject (genericGotOptions this))) options)).

(** [async json(api, options)] *)
Definition json (this : TAPContextGot) (path options : value) : M W value :=
  response <- api this path options ;;
  body <- lift (get_prop response "body") ;;
  perform (JSONParse body).

(** [async _withBody(method, api, options)] *)
Definition _withBody (this : TAPContextGot) (method : string) (path options : value)
  : M W value :=
  cache <- lift (get_prop options "cache") ;;
  let options : obj :=
    <["method" := VStr method]>
      (spread (spread {["headers" := VObject ∅]} (VObject (genericGotOptions this)))
              options) in
  let options := if truthy cache then options else base.delete "cache" options in
  options <- match get options "body" with
             | VFunction f =>
                 body <- perform (Invoke f) ;;
                 ret (<["body" := body]> options)
             | _ => ret options
             end ;;
  options <- match get options "body" with
             | VMultipart data =>
                 buffer <- perform (MultipartBuffer data) ;;
                 let options := <["body" := buffer]> options in
                 headers <- perform (MultipartGetHeaders data false) ;;
                 ret (<["headers" := VObject (spread (spread ∅ headers) (get options "headers"))]>
                        options)
             | _ =>
                 if not_strictly_false (get options "json") then
                   body <- perform (JSONStringify (get options "body")) ;;
                   let options := <["body" := body]> options in
                   ret (<["headers" :=
                            VObject (spread {["Content-Type" := VStr "application/json"]}
                                            (get options "headers"))]> options)
                 else ret options
             end ;;
  response <- perform (Got (ToString (baseURL this) ++ ToString path) options) ;;
  body <- lift (get_prop response "body") ;;
  perform (JSONParse body).

(** [post(api, options)] *)
Definition post (this : TAPContextGot) (path options : value) : M W value :=
  _withBody this "POST" path options.

(** [put(api, options)] *)
Definition put (this : TAPContextGot) (path options : value) : M W value :=
  _withBody this "PUT" path options.

(** [async delete(api, options)] *)
Definition delete (this : TAPContextGot) (path options : value) : M W value :=
  response <- api this path (VObject (<["method" := VStr "DELETE"]> (spread ∅ options))) ;;
  body <- lift (get_prop response "body") ;;
  perform (JSONParse body).

(** *** The assertions registered by [setup] *)

(** [apiRejects], arity 3 *)
Definition apiRejects (this : TestCase) (path options error message extra : value)
  : M W unit :=
  let options := or_else options (VObject ∅) in
  ctx <- this_context this ;;
  promise <- settle (json ctx path options) ;;
  let wanted := member (httpError ctx) (ToString error) in
  method <- lift (get_prop options "method") ;;
  let message :=
    or_else message
            (VStr (ToString (nullish_or method (VStr "GET")) ++ " " ++ ToString path)) in
  perform (Rejects promise wanted message extra) ;;;
  ret tt.

(** [checkGet], arity 2 *)
Definition checkGet (this : TestCase) (path expected message extra : value) : M W unit :=
  let message := or_else message (VStr ("GET " ++ ToString path)) in
  try_catch
    (ctx <- this_context this ;;
     found <- json ctx path VUndefined ;;
     perform (StrictSame found expected message extra) ;;;
     ret tt)
    (fun error => perform (Error error message extra) ;;; ret tt).

(** [matchGet], arity 2 *)
Definition matchGet (this : TestCase) (path expected message extra : value) : M W unit :=
  let message := or_else message (VStr ("GET " ++ ToString path)) in
  try_catch
    (ctx <- this_context this ;;
     found <- json ctx path VUndefined ;;
     perform (Match found expected message extra) ;;;
     ret tt)
    (fun error => perform (Error error message extra) ;;; ret tt).

(** [checkGetError], arity 2 *)
Definition checkGetError (this : TestCase) (path error message extra : value) : M W unit :=
  ctx <- this_context this ;;
  promise <- settle (json ctx path VUndefined) ;;
  perform (Rejects promise (member (httpError ctx) (ToString error))
                   (or_else message (VStr ("GET " ++ ToString path))) extra) ;;;
  ret tt.

(** [checkPost], arity 3 *)
Definition checkPost (this : TestCase) (path body expected message extra : value)
  : M W unit :=
  let message := or_else message (VStr ("POST " ++ ToString path)) in
  try_catch
    (ctx <- this_context this ;;
     found <- post ctx path (VObject {["body" := body]}) ;;
     perform (StrictSame found expected message extra) ;;;
     ret tt)
    (fun error => perform (Error error message extra) ;;; ret tt).

(** [checkPostError], arity 3 *)
Definition checkPostError (this : TestCase) (path body error message extra : value)
  : M W unit :=
  ctx <- this_context this ;;
  promise <- settle (post ctx path (VObject {["body" := body]})) ;;
  perform (Rejects promise (member (httpError ctx) (ToString error))
                   (or_else message (VStr ("POST " ++ ToString path))) extra) ;;;
  ret tt.

(** [checkPut], arity 3 *)
Definition checkPut (this : TestCase) (path body expected message extra : value)
  : M W unit :=
  let message := or_else message (VStr ("PUT " ++ ToString path)) in
  try_catch
    (ctx <- this_context this ;;
     found <- put ctx path (VObject {["body" := body]}) ;;
     perform (StrictSame found expected message extra) ;;;
     ret tt)
    (fun error => perform (Error error message extra) ;;; ret tt).

(** [checkPutError], arity 3 *)
Definition checkPutError (this : TestCase) (path body error message extra : value)
  : M W unit :=
  ctx <- this_context this ;;
  promise <- settle (put ctx path (VObject {["body" := body]})) ;;
  perform (Rejects promise (member (httpError ctx) (ToString error))
                   (or_else message (VStr ("PUT " ++ ToString path))) extra) ;;;
  ret tt.

(** [checkDelete], arity 2 *)
Definition checkDelete (this : TestCase) (path expected message extra : value) : M W unit :=
  let message := or_else message (VStr ("DELETE " ++ ToString path)) in
  try_catch
    (ctx <- this_context this ;;
     found <- delete ctx path VUndefined ;;
     perform (StrictSame found expected message extra) ;;;
     ret tt)
    (fun error => perform (Error error message extra) ;;; ret tt).

(** [checkDeleteError], arity 2 *)
Definition checkDeleteError (this : TestCase) (path error message extra : value)
  : M W unit :=
  ctx <- this_context this ;;
  promise <- settle (delete ctx path VUndefined) ;;
  perform (Rejects promise (member (httpError ctx) (ToString error))
                   (or_else message (VStr ("DELETE " ++ ToString path))) extra) ;;;
  ret tt.

(** The function given to [tap.teardown]. *)
Definition teardown_fn (integrationInstance : Integration.Instance) : M W unit :=
  optional_call host (Integration.stop integrationInstance) ;;;
  optional_call host (Integration.checkStopped integrationInstance) ;;;
  ret tt.

(** The function given to [tap.beforeEach]: [t.context = context]. *)
Definition beforeEach_fn (context : TAPContextGot) (t : TestCase) : M W TestCase :=
  ret {| context := Some context |}.

(** The callback of [tap.test('setup integration testing', ...)]. *)
Definition setup_test (integrationInstance : Integration.Instance) (tap : Tap W)
  : M W (Tap W) :=
  context <- constructor integrationInstance ;;
  optional_call host (Integration.start integrationInstance) ;;;
  let tap := add_beforeEach (beforeEach_fn context) tap in
  let tap := add_teardown (teardown_fn integrationInstance) tap in
  ret tap.

(** [static setup(tap, integrationInstance)] *)
Definition setup (tap : Tap W) (integrationInstance : Integration.Instance) : M W (Tap W) :=
  let tap := addAssert "apiRejects" 3
    (fun this a => apiRejects this (arg a 0) (arg a 1) (arg a 2) (arg a 3) (arg a 4)) tap in
  let tap := addAssert "checkGet" 2
    (fun this a => checkGet this (arg a 0) (arg a 1) (arg a 2) (arg a 3)) tap in
  let tap := addAssert "matchGet" 2
    (fun this a => matchGet this (arg a 0) (arg a 1) (arg a 2) (arg a 3)) tap in
  let tap := addAssert "checkGetError" 2
    (fun this a => checkGetError this (arg a 0) (arg a 1) (arg a 2) (arg a 3)) tap in
  let tap := addAssert "checkPost" 3
    (fun this a => checkPost this (arg a 0) (arg a 1) (arg a 2) (arg a 3) (arg a 4)) tap in
  let tap := addAssert "checkPostError" 3
    (fun this a => checkPostError this (arg a 0) (arg a 1) (arg a 2) (arg a 3) (arg a 4)) tap in
  let tap := addAssert "checkPut" 3
    (fun this a => checkPut this (arg a 0) (arg a 1) (arg a 2) (arg a 3) (arg a 4)) tap in
  let tap := addAssert "checkPutError" 3
    (fun this a => checkPutError this (arg a 0) (arg a 1) (arg a 2) (arg a 3) (arg a 4)) tap in
  let tap := addAssert "checkDelete" 2
    (fun this a => checkDelete this (arg a 0) (arg a 1) (arg a 2) (arg a 3)) tap in
  let tap := addAssert "checkDeleteError" 2
    (fun this a => checkDeleteError this (arg a 0) (arg a 1) (arg a 2) (arg a 3)) tap in
  tap_test (setup_test integrationInstance) tap.

End Part000.
End Part000.

(** ** src/index.js *)

Module IndexJs.
Section IndexJs.
Context {W : Type} (host : call -> W -> completion value * W).

Local Abbreviation perform := (Run.perform host).

(** [new TAPContextGot(integrationInstance)]; this class has no
    sub-instance properties. *)
Definition constructor (integrationInstance : Integration.Instance) : M W TAPContextGot :=
  cache <- perform NewMap ;;
  cookieJar <- perform NewCookieJar ;;
  let genericGotOptions : obj :=
    <["cache" := cache]> (<["timeout" := VNum 10000]> (<["cookieJar" := cookieJar]> ∅)) in
  ret {| httpError := httpError_init;
         genericGotOptions := genericGotOptions;
         integrationInstance := integrationInstance;
         instanceProps := ∅;
         defaultInstance := VUndefined |}.

(** [async getCookieString(url)] *)
Definition getCookieString (this : TAPContextGot) (url : value) : M W value :=
  cookieJar <- lift (get_prop (VObject (genericGotOptions this)) "cookieJar") ;;
  match cookieJar with
  | VUndefined | VNull =>
      throw (VError "TypeError" ("Cannot read properties of " ++ ToString cookieJar))
  | _ =>
      if has_method cookieJar "getCookieString"
      then perform (GetCookieString cookieJar url)
      else
        match get_prop cookieJar "getCookieString" with
        | Normal ((VUndefined | VNull) as method) =>
            throw (VError "TypeError"
                     ("Cannot read properties of " ++ ToString method ++ " (reading 'bind')"))
        | _ => throw (VError "TypeError" "cookieJar.getCookieString.bind is not a function")
        end
  end.

(** [api(api, options)] *)
Definition api (this : TAPContextGot) (api options : value) : M W value :=
  perform (Got (ToString (baseURL this) ++ ToString api)
               (spread (spread ∅ (VObject (genericGotOptions this))) options)).

(** [async json(api, options)] *)
Definition json (this : TAPContextGot) (path options : value) : M W value :=
  response <- api this path options ;;
  body <- lift (get_prop response "body") ;;
  perform (JSONParse body).

(** [async post(api, options)] *)
Definition post (this : TAPContextGot) (path options : value) : M W value :=
  cache <- lift (get_prop options "cache") ;;
  let options : obj :=
    spread (spread {["headers" := VObject ∅]} (VObject (genericGotOptions this))) options in
  let options := if truthy cache then options else base.delete "cache" options in
  options <- match get options "body" with
             | VFunction f =>
                 body <- perform (Invoke f) ;;
                 ret (<["body" := body]> options)
             | _ => ret options
             end ;;
  options <- match get options "body" with
             | VMultipart data =>
                 buffer <- perform (MultipartBuffer data) ;;
                 let options := <["body" := buffer]> options in
                 headers <- perform (MultipartGetHeaders data false) ;;
                 ret (<["headers" := VObject (spread (spread ∅ headers) (get options "headers"))]>
                        options)
             | _ =>
                 if not_strictly_false (get options "json") then
                   body <- perform (JSONStringify (get options "body")) ;;
                   let options := <["body" := body]> options in
                   ret (<["headers" :=
                            VObject (spread {["Content-Type" := VStr "application/json"]}
                                            (get options "headers"))]> options)
                 else ret options
             end ;;
  response <- perform (GotPost (ToString (baseURL this) ++ ToString path) options) ;;
  body <- lift (get_prop response "body") ;;
  perform (JSONParse body).

(** *** The assertions registered by [setup] *)

(** [checkGet], arity 2 *)
Definition checkGet (this : TestCase) (path expected message extra : value) : M W unit :=
  try_catch
    (ctx <- this_context this ;;
     found <- json ctx path VUndefined ;;
     perform (StrictSame found expected (or_else message path) extra) ;;;
     ret tt)
    (fun error => perform (Error error (or_else message path) extra) ;;; ret tt).

(** [matchGet], arity 2 *)
Definition matchGet (this : TestCase) (path expected message extra : value) : M W unit :=
  try_catch
    (ctx <- this_context this ;;
     found <- json ctx path VUndefined ;;
     perform (Match found expected (or_else message path) extra) ;;;
     ret tt)
    (fun error => perform (Error error (or_else message path) extra) ;;; ret tt).

(** [checkGetError], arity 2 *)
Definition checkGetError (this : TestCase) (path error message extra : value) : M W unit :=
  ctx <- this_context this ;;
  promise <- settle (json ctx path VUndefined) ;;
  perform (Rejects promise (member (httpError ctx) (ToString error))
                   (or_else message (VStr ("GET " ++ ToString path))) extra) ;;;
  ret tt.

(** [checkPost], arity 3 *)
Definition checkPost (this : TestCase) (path body expected message extra : value)
  : M W unit :=
  try_catch
    (ctx <- this_context this ;;
     found <- post ctx path (VObject {["body" := body]}) ;;
     perform (StrictSame found expected (or_else message path) extra) ;;;
     ret tt)
    (fun error => perform (Error error (or_else message path) extra) ;;; ret tt).

(** [checkPostError], arity 3 *)
Definition checkPostError (this : TestCase) (path body error message extra : value)
  : M W unit :=
  ctx <- this_context this ;;
  promise <- settle (post ctx path (VObject {["body" := body]})) ;;
  perform (Rejects promise (member (httpError ctx) (ToString error))
                   (or_else message (VStr ("POST " ++ ToString path))) extra) ;;;
  ret tt.

(** The function given to [tap.teardown]. *)
Definition teardown_fn (integrationInstance : Integration.Instance) : M W unit :=
  optional_call host (Integration.stop integrationInstance) ;;;
  optional_call host (Integration.checkStopped integrationInstance) ;;;
  ret tt.

(** The function given to [tap.beforeEach]: [t.context = context]. *)
Definition beforeEach_fn (context : TAPContextGot) (t : TestCase) : M W TestCase :=
  ret {| context := Some context |}.

(** The callback of [tap.test('setup integration testing', ...)]. *)
Definition setup_test (integrationInstance : Integration.Instance) (tap : Tap W)
  : M W (Tap W) :=
  context <- constructor integrationInstance ;;
  optional_call host (Integration.start integrationInstance) ;;;
  let tap := add_beforeEach (beforeEach_fn context) tap in
  let tap := add_teardown (teardown_fn integrationInstance) tap in
  ret tap.

(** [static setup(tap, integrationInstance)] *)
Definition setup (tap : Tap W) (integrationInstance : Integration.Instance) : M W (Tap W) :=
  let tap := addAssert "checkGet" 2
    (fun this a => checkGet this (arg a 0) (arg a 1) (arg a 2) (arg a 3)) tap in
  let tap := addAssert "matchGet" 2
    (fun this a => matchGet this (arg a 0) (arg a 1) (arg a 2) (arg a 3)) tap in
  let tap := addAssert "checkGetError" 2
    (fun this a => checkGetError this (arg a 0) (arg a 1) (arg a 2) (arg a 3)) tap in
  let tap := addAssert "checkPost" 3
    (fun this a => checkPost this (arg a 0) (arg a 1) (arg a 2) (arg a 3) (arg a 4)) tap in
  let tap := addAssert "checkPostError" 3
    (fun this a => checkPostError this (arg a 0) (arg a 1) (arg a 2) (arg a 3) (arg a 4)) tap in
  tap_test (setup_test integrationInstance) tap.

End IndexJs.
End IndexJs.

(** ** What a trace shows *)

(** The message and the extra object of a call to a reporting primitive. *)
Definition report_of (c : call) : option (value * value) :=
  match c with
  | StrictSame _ _ message extra => Some (message, extra)
  | Match _ _ message extra => Some (message, extra)
  | Error _ message extra => Some (message, extra)
  | Rejects _ _ message extra => Some (message, extra)
  | _ => None
  end.

Definition reports (t : list entry) : list (value * value) :=
  omap (fun e => report_of (fst e)) t.

(** The options of the requests handed to the transport. *)
Definition request_of (c : call) : option obj :=
  match c with
  | Got _ options => Some options
  | GotPost _ options => Some options
  | _ => None
  end.

Definition requests (t : list entry) : list obj :=
  omap (fun e => request_of (fst e)) t.

(** A step of the body-bearing path: resolving a deferred body, reading a
    multipart handle, or encoding as JSON. *)
Definition is_body_step (c : call) : bool :=
  match c with
  | Invoke _ | MultipartBuffer _ | MultipartGetHeaders _ _ | JSONStringify _ => true
  | _ => false
  end.


(** A run from a fresh trace. *)
Definition start_world {W : Type} (s : W) : world W := {| trace := []; hstate := s |}.

(** ** Stages of the body-bearing path *)

(** The three stages of [_withBody] and of [index.js]'s [post] after the
    options are merged, named so that the proofs can take them one at a
    time; [Part000.withBody_stages] and [IndexJs.post_stages] show that the
    functions are these stages in a row. *)
Section Stages.
Context {W : Type} (host : call -> W -> completion value * W).

Local Abbreviation perform := (Run.perform host).

(** [if (typeof options.body === 'function') ...] *)
Definition resolve_stage (options : obj) : M W obj :=
  match get options "body" with
  | VFunction f =>
      body <- perform (Invoke f) ;;
      ret (<["body" := body]> options)
  | _ => ret options
  end.

(** [if (options.body instanceof Multipart) ... else if (options.json !== false) ...] *)
Definition encode_stage (options : obj) : M W obj :=
  match get options "body" with
  | VMultipart data =>
      buffer <- perform (MultipartBuffer data) ;;
      let options := <["body" := buffer]> options in
      headers <- perform (MultipartGetHeaders data false) ;;
      ret (<["headers" := VObject (spread (spread ∅ headers) (get options "headers"))]>
             options)
  | _ =>
      if not_strictly_false (get options "json") then
        body <- perform (JSONStringify (get options "body")) ;;
        let options := <["body" := body]> options in
        ret (<["headers" :=
                 VObject (spread {["Content-Type" := VStr "application/json"]}
                                 (get options "headers"))]> options)
      else ret options
  end.

(** The transport call and [JSON.parse] of the body of its response. *)
Definition send_stage (request : call) : M W value :=
  response <- perform request ;;
  body <- lift (get_prop response "body") ;;
  perform (JSONParse body).

(** The stages in a row, from the merged options [m]; [mk] is [got] or
    [got.post] at the address of the request. *)
Definition body_path (m : obj) (mk : obj -> call) : M W value :=
  options <- resolve_stage m ;;
  options <- encode_stage options ;;
  send_stage (mk options).

End Stages.

(** The options of [_withBody] after the merge and the removal of the
    cache, for a caller's object [o]: the caller's options over the defaults
    over [headers: {}], with [method] forced. *)
Definition merged (this : TAPContextGot) (method : string) (o : obj) : obj :=
  let m := <["method" := VStr method]>
             (o ∪ (genericGotOptions this ∪ {["headers" := VObject ∅]})) in
  if truthy (get o "cache") then m else base.delete "cache" m.

(** The same for [index.js]'s [post], which does not set [method]. *)
Definition merged_post (this : TAPContextGot) (o : obj) : obj :=
  let m := o ∪ (genericGotOptions this ∪ {["headers" := VObject ∅]}) in
  if truthy (get o "cache") then m else base.delete "cache" m.

(** The address of a request. *)
Definition url_of (this : TAPContextGot) (path : value) : string :=
  ToString (baseURL this) ++ ToString path.

(** [typeof v === 'function'] and [v instanceof Multipart], with the name. *)
Definition as_function (v : value) : option string :=
  match v with
  | VFunction f => Some f
  | _ => None
  end.

Definition as_multipart (v : value) : option string :=
  match v with
  | VMultipart h => Some h
  | _ => None
  end.

(** The body after the deferred-body step, from the host's state [s]: the
    value, the state after the step and the entries the step records; [None]
    when the producer throws. *)
Definition resolved_body {W : Type} (host : call -> W -> completion value * W)
    (body : value) (s : W) : option (value * W * list entry) :=
  match as_function body with
  | Some f =>
      match host (Invoke f) s with
      | (Normal v, s') => Some (v, s', [(Invoke f, Normal v)])
      | (Throw _, _) => None
      end
  | None => Some (body, s, [])
  end.

(** The options after the deferred-body step, when it produced [v]. *)
Definition with_resolved (m : obj) (v : value) : obj :=
  match as_function (get m "body") with
  | Some _ => <["body" := v]> m
  | None => m
  end.

Definition is_parse (c : call) : bool :=
  match c with
  | JSONParse _ => true
  | _ => false
  end.

(** The calls of a trace other than [JSON.parse], in order. *)
Definition outgoing (t : list entry) : list call :=
  List.filter (fun c => negb (is_parse c)) (calls t).

Definition is_multipart (v : value) : bool :=
  match v with
  | VMultipart _ => true
  | _ => false
  end.

Definition is_invocation (c : call) : bool :=
  match c with
  | Invoke _ => true
  | _ => false
  end.


(** Modelled from the spec: tap's [rejects] primitive, which is not part of
    the repository.  "assert that it fails with a transport error whose
    message matches the pattern registered under the given classification
    key.  If the call instead succeeds, or fails with a non-matching error,
    the assertion fails."  The spec says nothing for an expectation that is
    not a pattern: there is no verdict then. *)
Definition rejects_verdict (outcome : completion value) (wanted : value) : option bool :=
  match wanted with
  | VRegExp source _ =>
      Some match outcome with
           | Throw (VError _ message) => regexp_test source message
           | _ => false
           end
  | _ => None
  end.

Definition verdict_of (c : call) : option (option bool) :=
  match c with
  | Rejects outcome wanted _ _ => Some (rejects_verdict outcome wanted)
  | _ => None
  end.

(** The verdicts of the failure assertions of a trace. *)
Definition verdicts (t : list entry) : list (option bool) :=
  omap (fun e => verdict_of (fst e)) t.

(** The method an assertion of [setup] names in its default message. *)
Definition assert_method (name : string) (args : list value) : string :=
  if bool_decide (name ∈ ["checkGet"; "matchGet"; "checkGetError"]) then "GET"
  else if bool_decide (name ∈ ["checkPost"; "checkPostError"]) then "POST"
  else if bool_decide (name ∈ ["checkPut"; "checkPutError"]) then "PUT"
  else if bool_decide (name ∈ ["checkDelete"; "checkDeleteError"]) then "DELETE"
  else match get_prop (or_else (arg args 1) (VObject ∅)) "method" with
       | Normal method => ToString (nullish_or method (VStr "GET"))
       | Throw _ => "GET"
       end.

(** No request of the trace has a [cache] key. *)
Definition no_cache (t : list entry) : Prop :=
  Forall (fun request : obj => request !! "cache" = None) (requests t).

(** A request of the trace has a [cache] only when the caller's object [o]
    has that very value under [cache], and the value is truthy. *)
Definition cache_only_from (o : obj) (t : list entry) : Prop :=
  forall (request : obj) (v : value),
    request ∈ requests t -> request !! "cache" = Some v ->
    o !! "cache" = Some v /\ truthy v = true.

(** The trace has one request, with the [cache] of the default options. *)
Definition inherits_cache (this : TAPContextGot) (t : list entry) : Prop :=
  exists request : obj,
    requests t = [request] /\ request !! "cache" = genericGotOptions this !! "cache".



Definition is_transport (c : call) : bool :=
  match c with
  | Got _ _ | GotPost _ _ => true
  | _ => false
  end.

(** The calls of the transport, in order. *)
Definition transport_calls (t : list entry) : list call :=
  List.filter is_transport (calls t).

(** A step of the body-bearing path threw. *)
Definition thrown_body_step (t : list entry) : Prop :=
  exists (c : call) (e : value), (c, Throw e) ∈ t /\ is_body_step c = true.

(** [undefined] or [null] *)
Definition nullish (v : value) : bool :=
  match v with
  | VUndefined | VNull => true
  | _ => false
  end.

(** ** What the claims say *)

(** An entry of the trace that threw is the last entry, and what it threw
    is how the run ended: the run kept no error to itself. *)
Definition propagates (r : completion value) (t : list entry) : Prop :=
  forall (c : call) (e : value),
    (c, Throw e) ∈ t -> r = Throw e /\ last t = Some (c, Throw e).

(** When the last entry of the trace is a call of [JSON.parse], the run
    ended as that call did. *)
Definition returns_parsed (r : completion value) (t : list entry) : Prop :=
  forall (text : value) (c : completion value),
    last t = Some (JSONParse text, c) -> r = c.

(** A trace without a report: the operations on requests make none. *)
Definition silent (t : list entry) : Prop := reports t = [] /\ verdicts t = [].

(** The operation rejects with an error whose message matches the
    pattern. *)
Definition rejects_matching (source : string) (outcome : completion value) : Prop :=
  exists name message,
    outcome = Throw (VError name message) /\ regexp_test source message = true.

(** The assertion whose trace is [t] made one call of [rejects], which
    passed, or failed. *)
Definition passes (t : list entry) : Prop := verdicts t = [Some true].

Definition fails (t : list entry) : Prop := verdicts t = [Some false].

(** The assertion passes exactly when the operation rejects with a matching
    error, and fails otherwise. *)
Definition judges (source : string) (outcome : completion value) (t : list entry) : Prop :=
  (passes t <-> rejects_matching source outcome)
  /\ (fails t <-> ~ rejects_matching source outcome).

(** Every report of the trace carries the message and the extra object,
    and there is a report when the test has the context. *)
Definition reports_with (this : TestCase) (message extra : value) (t : list entry) : Prop :=
  Forall (fun r => r = (message, extra)) (reports t)
  /\ (is_Some (context this) -> reports t <> []).

(** For options merged to [m] from the caller's [o]: the calls of the run
    other than [JSON.parse] are the resolution of the body ([pre]), then
    [h.buffer()], [h.getHeaders(false)] and the request [mk final].  The
    request carries the buffer as [body]; its headers are those of the handle
    under the headers of [m], which are the caller's when [o] has any, and a
    key of both keeps the value of [m]. *)
Definition multipart_run (h : string) (pre : list entry) (buffer headers : value)
    (o m : obj) (mk : obj -> call) (t : list entry) : Prop :=
  let callers := get m "headers" in
  let final := <["headers" := VObject (own_props callers ∪ own_props headers)]>
                 (<["body" := buffer]> m) in
  outgoing t = (calls pre ++ [MultipartBuffer h; MultipartGetHeaders h false; mk final])%list
  /\ get final "body" = buffer
  /\ (forall hv, o !! "headers" = Some hv -> callers = hv)
  /\ (forall k v, own_props callers !! k = Some v ->
                 (own_props callers ∪ own_props headers) !! k = Some v).

(** The calls of the run other than [JSON.parse] are the resolution of the
    body, [JSON.stringify] of the resolved body [v] and the request, which
    carries [encoded] as [body] and [Content-Type: application/json] under
    the headers of [m]. *)
Definition encoded_run (v encoded : value) (pre : list entry) (m : obj) (mk : obj -> call)
    (t : list entry) : Prop :=
  outgoing t
  = (calls pre ++
     [JSONStringify v;
      mk (<["headers" :=
              VObject (own_props (get m "headers")
                       ∪ {["Content-Type" := VStr "application/json"]})]>
            (<["body" := encoded]> m))])%list.

(** The calls of the run other than [JSON.parse] are the resolution of the
    body and the request, which is [m] with the resolved body [v]: [v] is its
    [body] and its headers are those of [m]. *)
Definition verbatim_run (v : value) (pre : list entry) (m : obj) (mk : obj -> call)
    (t : list entry) : Prop :=
  outgoing t = (calls pre ++ [mk (with_resolved m v)])%list
  /\ get (with_resolved m v) "body" = v
  /\ get (with_resolved m v) "headers" = get m "headers".

Section Properties.
Context {W : Type}.

(** The run handed the transport no [cache], and exactly one request when
    it returned. *)
Definition sends_no_cache (run : completion value * world W) : Prop :=
  let '(r, w') := run in
  no_cache (trace w') /\ (forall v, r = Normal v -> length (requests (trace w')) = 1).

(** The run kept no error to itself and returned what [JSON.parse]
    answered. *)
Definition transparent (run : completion value * world W) : Prop :=
  let '(r, w') := run in
  propagates r (trace w') /\ returns_parsed r (trace w').

(** Whenever the transport answered a request, the run read [body] off the
    answer, ending with what the read threw when the answer is [undefined]
    or [null], handed that body to [JSON.parse] in the call that follows the
    request, the last of the run, and ended as [JSON.parse] did: with the
    parsed value, or with the error it threw at a body that is not JSON. *)
Definition parses_response (r : completion value) (t : list entry) : Prop :=
  forall (request : call) (answer : value),
    (request, Normal answer) ∈ t ->
    is_transport request = true ->
    match get_prop answer "body" with
    | Throw e => r = Throw e /\ last t = Some (request, Normal answer)
    | Normal body =>
        exists earlier parsed,
          t = (earlier ++ [(request, Normal answer); (JSONParse body, parsed)])%list
          /\ r = parsed
    end.

(** A run of [json] or [delete]: it keeps no error to itself; its first
    call is a request to the transport, and the response is parsed. *)
Definition parsed_get (run : completion value * world W) : Prop :=
  transparent run
  /\ (let '(r, w') := run in
      parses_response r (trace w')
      /\ exists request answer rest,
           trace w' = (request, answer) :: rest /\ is_transport request = true).

(** A run of [post] or [put] with [options]: it keeps no error to itself;
    it sends no request only when the options are [undefined] or [null] or a
    step that prepares the body threw, and the response is parsed. *)
Definition parsed_body (options : value) (run : completion value * world W) : Prop :=
  transparent run
  /\ (let '(r, w') := run in
      parses_response r (trace w')
      /\ (transport_calls (trace w') = [] ->
          thrown_body_step (trace w') \/ nullish options = true)).

(** The run, from the host's state [s] and options merged to [m], began with
    the invocation of [f] and invoked nothing after it; when [f] threw, the
    run ended there with what it threw; when [f] returned [v], the next call
    is [buffer()] of [v] when it is a multipart handle and [JSON.stringify] of
    [v] otherwise, or, with [json] strictly [false], the one request of the
    run is [m] with [v] as [body]. *)
Definition deferred_run (host : call -> W -> completion value * W) (f : string) (s : W)
    (m : obj) (run : completion value * world W) : Prop :=
  let '(r, w') := run in
  let '(produced, _) := host (Invoke f) s in
  exists rest,
    trace w' = (Invoke f, produced) :: rest
    /\ List.filter is_invocation (calls rest) = []
    /\ match produced with
       | Throw e => r = Throw e /\ rest = []
       | Normal v =>
           match as_multipart v with
           | Some h => head (calls rest) = Some (MultipartBuffer h)
           | None =>
               if not_strictly_false (get m "json")
               then head (calls rest) = Some (JSONStringify v)
               else requests rest = [<["body" := v]> m]
           end
       end.


(** With the message omitted, every report of the assertion carries the
    default message [<METHOD> <path>] and the given extra object, and a
    test with the context makes a report. *)
Definition reports_default (name : string) (arity : nat) (fn : assertion W) : Prop :=
  forall (this : TestCase) (args : list value) (s : W),
    arg args arity = VUndefined ->
    reports_with this
      (VStr (assert_method name args ++ " " ++ ToString (arg args 0))) (arg args (S arity))
      (trace (snd (fn this args (start_world s)))).

(** Every report of the assertion carries the given extra object. *)
Definition forwards_extra (arity : nat) (fn : assertion W) : Prop :=
  forall (this : TestCase) (args : list value) (s : W),
    Forall (fun report => snd report = arg args (S arity))
           (reports (trace (snd (fn this args (start_world s))))).

(** The claim on the default message and the extra object, for the
    assertions a [setup] registers. *)
Definition default_message_claim
    (setup : Tap W -> Integration.Instance -> M W (Tap W)) : Prop :=
  forall (instance : Integration.Instance) (s : W),
  exists tap w',
    setup empty_tap instance (start_world s) = (Normal tap, w')
    /\ forall name arity fn,
         (name, arity, fn) ∈ asserts tap ->
         reports_default name arity fn /\ forwards_extra arity fn.

End Properties.

(** ** A host to run the model on *)

(** A service with one widget.  [GET], [POST] and [PUT] of [/widgets/1]
    answer the widget, every other path answers 404; the producer
    [makeWidget] returns a literal body and [makeForm] a multipart handle;
    the state counts the calls. *)
Module Demo.

Definition widget : value :=
  VObject (<["id" := VNum 1]> (<["name" := VStr "bolt"]> ∅)).

Definition not_found : value := VError "HTTPError" "Response code 404 (Not Found)".

Definition respond (url : string) : completion value :=
  if String.eqb url "http://localhost/widgets/1"
  then Normal (VObject {["body" := VStr "{id:1,name:bolt}"]})
  else Throw not_found.

Definition host (c : call) (n : nat) : completion value * nat :=
  (match c with
   | Invoke "makeWidget" => Normal widget
   | Invoke "makeForm" => Normal (VMultipart "form")
   | Invoke "stop" => Normal VUndefined
   | Invoke "start" => Normal VUndefined
   | Invoke "checkStopped" => Normal VUndefined
   | Invoke _ => Throw (VError "ReferenceError" "not defined")
   | MultipartBuffer _ => Normal (VHost "Buffer" n)
   | MultipartGetHeaders _ chunked =>
       Normal (VObject (if chunked
                        then <["transfer-encoding" := VStr "chunked"]>
                               {["content-type" := VStr "multipart/form-data; boundary=x"]}
                        else {["content-type" := VStr "multipart/form-data; boundary=x"]}))
   | JSONStringify _ => Normal (VStr "{id:1,name:bolt}")
   | JSONParse (VStr "{id:1,name:bolt}") => Normal widget
   | JSONParse _ => Throw (VError "SyntaxError" "Unexpected token")
   | Got url _ => respond url
   | GotPost url _ => respond url
   | GetCookieString _ _ => Normal (VStr "")
   | NewMap => Normal (VHost "Map" n)
   | NewCookieJar => Normal (VHost "CookieJar" n)
   | StrictSame _ _ _ _ | Match _ _ _ _ | Error _ _ _ | Rejects _ _ _ _ => Normal VUndefined
   end, S n).

Definition instance : Integration.Instance :=
  {| Integration.baseURL := VStr "http://localhost";
     Integration.start := VFunction "start";
     Integration.stop := VFunction "stop";
     Integration.checkStopped := VUndefined;
     Integration.instances := Some [];
     Integration.members := ∅;
     Integration.defaultInstance := VUndefined |}.

(** The context [new TAPContextGot(instance)] builds from state 0. *)
Definition this : TAPContextGot :=
  {| httpError := httpError_init;
     genericGotOptions :=
       <["cache" := VHost "Map" 0]>
         (<["timeout" := VNum 10000]> (<["cookieJar" := VHost "CookieJar" 1]> ∅));
     integrationInstance := instance;
     instanceProps := ∅;
     defaultInstance := VUndefined |}.

Definition test : TestCase := {| context := Some this |}.

Definition path : value := VStr "/widgets/1".

Definition missing : value := VStr "/missing".

(** [{body: widget}] *)
Definition widget_options : obj := {["body" := widget]}.

(** [{cache: false, body: widget}] *)
Definition uncached_options : obj := <["cache" := VBool false]> {["body" := widget]}.

(** [{body: makeWidget}] *)
Definition deferred_options : obj := {["body" := VFunction "makeWidget"]}.

(** [{json: false, body: 'raw'}] *)
Definition verbatim_options : obj := <["json" := VBool false]> {["body" := VStr "raw"]}.

(** [{headers: {'x-token': 'abc'}, json: true, body: makeForm}] *)
Definition form_options : obj :=
  <["headers" := VObject {["x-token" := VStr "abc"]}]>
    (<["json" := VBool true]> {["body" := VFunction "makeForm"]}).

(** What [getHeaders(false)] of the form answers. *)
Definition form_headers : value :=
  VObject {["content-type" := VStr "multipart/form-data; boundary=x"]}.

Definition form_resolution : list entry := [(Invoke "makeForm", Normal (VMultipart "form"))].

End Demo.

(** ** More of what a trace shows *)

(** The expectation handed to [t.rejects]. *)
Definition expectation_of (c : call) : option value :=
  match c with
  | Rejects _ wanted _ _ => Some wanted
  | _ => None
  end.

Definition expectations (t : list entry) : list value :=
  omap (fun e => expectation_of (fst e)) t.

(** The run made no call and threw a [TypeError]. *)
Definition type_error_without_call {W A : Type} (s : W)
    (run : completion A * world W) : Prop :=
  exists message, run = (Throw (VError "TypeError" message), start_world s).

(** The run made at most one call of the transport, [request_call] of some
    options that satisfy [P]; it made none only by throwing. *)
Definition one_transport_call {W : Type} (request_call : obj -> call) (P : obj -> Prop)
    (run : completion value * world W) : Prop :=
  let '(r, w') := run in
  (transport_calls (trace w') = [] /\ exists e, r = Throw e)
  \/ (exists request, transport_calls (trace w') = [request_call request] /\ P request).

(** The one request of the trace carries, as [headers], an object that has
    every header of [hv] under its own name and [Content-Type:
    application/json] unless [hv] has a header of exactly that name. *)
Definition json_headers (hv : value) (t : list entry) : Prop :=
  exists (request hs : obj),
    requests t = [request]
    /\ request !! "headers" = Some (VObject hs)
    /\ hs !! "Content-Type"
       = Some (default (VStr "application/json") (own_props hv !! "Content-Type"))
    /\ forall k, k <> "Content-Type" -> hs !! k = own_props hv !! k.

(** The run asked the jar for the cookies of [url], once, and ended as the
    jar answered. *)
Definition asks_jar {W : Type} (host : call -> W -> completion value * W)
    (jar url : value) (s : W) (run : completion value * world W) : Prop :=
  let '(r, w') := run in
  let '(answer, _) := host (GetCookieString jar url) s in
  r = answer /\ trace w' = [(GetCookieString jar url, answer)].

(** Every request of the trace carries [jar] as its [cookieJar]. *)
Definition carries_jar (jar : value) (t : list entry) : Prop :=
  Forall (fun request : obj => request !! "cookieJar" = Some jar) (requests t).







(** What an assertion returns after a reporting call: nothing, or what the
    call threw. *)
Definition reported (c : completion value) : completion unit :=
  match c with
  | Normal _ => Normal tt
  | Throw e => Throw e
  end.

(** How a success assertion runs on top of its operation.  When the
    operation returns [found], the assertion calls [report found] next; when
    the operation throws, it calls [t.error] with what was thrown, and so it
    does when the report itself throws.  It makes no other call and ends as
    its last reporting call does. *)
Definition success_run {W : Type} (host : call -> W -> completion value * W)
    (report : value -> call) (message extra : value)
    (operation : completion value * world W) (assertion : completion unit * world W)
    : Prop :=
  let '(outcome, w1) := operation in
  let '(r, w') := assertion in
  match outcome with
  | Normal found =>
      let '(answer, s2) := host (report found) (hstate w1) in
      match answer with
      | Normal _ =>
          r = Normal tt /\ calls (trace w') = (calls (trace w1) ++ [report found])%list
      | Throw e =>
          r = reported (fst (host (Error e message extra) s2))
          /\ calls (trace w')
             = (calls (trace w1) ++ [report found; Error e message extra])%list
      end
  | Throw e =>
      r = reported (fst (host (Error e message extra) (hstate w1)))
      /\ calls (trace w') = (calls (trace w1) ++ [Error e message extra])%list
  end.

(** The assertion made one call, [t.error] with a [TypeError], and ended as
    that call did. *)
Definition reports_type_error {W : Type} (host : call -> W -> completion value * W)
    (message extra : value) (s : W) (run : completion unit * world W) : Prop :=
  exists text,
    let e := VError "TypeError" text in
    fst run = reported (fst (host (Error e message extra) s))
    /\ calls (trace (snd run)) = [Error e message extra].

(** The trace has one call of [t.rejects], with [wanted] as expectation. *)
Definition expects (wanted : value) (t : list entry) : Prop := expectations t = [wanted].

(** What a fresh [httpError] answers under a key: the pattern of the
    three status codes it lists, and for any other key what the object
    inherits. *)
Definition registered_pattern (key : string) : value :=
  if bool_decide (key ∈ ["400"; "404"; "405"])
  then VRegExp ("Response code " ++ key) "u"
  else object_prototype key.

(** ** The path helpers of part_000 *)

(** [runPath], [readdir] and [readFile] call the default instance and
    [fs/promises], and nothing of the transport or of tap: the module has the
    calls and the host of its own.  A run gives how the helper ends, the
    calls it made, oldest first, and the state of the host. *)
Module Files.

Inductive call : Type :=
| RunPath (instance : value) (args : list value)   (* instance.runPath(...args) *)
| Readdir (path : value) (options : list value)    (* fs.readdir(path, ...options) *)
| ReadFile (path : value) (options : list value).  (* fs.readFile(path, ...options) *)

Definition is_fs (c : call) : bool :=
  match c with
  | Readdir _ _ | ReadFile _ _ => true
  | RunPath _ _ => false
  end.

Section Files.
Context {W : Type} (host : call -> W -> completion value * W).

Definition run : Type := completion value * list call * W.

(** [runPath(...args)] *)
Definition runPath (this : TAPContextGot) (args : list value) (s : W) : run :=
  let instance := defaultInstance this in
  if has_method instance "runPath"
  then let '(r, s1) := host (RunPath instance args) s in (r, [RunPath instance args], s1)
  else (Throw (VError "TypeError"
                 (if nullish instance
                  then "Cannot read properties of " ++ ToString instance
                       ++ " (reading 'runPath')"
                  else "this.defaultInstance.runPath is not a function")),
        [], s).

(** [async readdir(directory, ...options)] *)
Definition readdir (this : TAPContextGot) (directory : value) (options : list value)
    (s : W) : run :=
  match runPath this [directory] s with
  | (Normal path, t, s1) =>
      let '(r, s2) := host (Readdir path options) s1 in
      (r, (t ++ [Readdir path options])%list, s2)
  | (Throw e, t, s1) => (Throw e, t, s1)
  end.

(** [async readFile(filename, ...options)] *)
Definition readFile (this : TAPContextGot) (filename : value) (options : list value)
    (s : W) : run :=
  match runPath this [filename] s with
  | (Normal path, t, s1) =>
      let '(r, s2) := host (ReadFile path options) s1 in
      (r, (t ++ [ReadFile path options])%list, s2)
  | (Throw e, t, s1) => (Throw e, t, s1)
  end.

(** A run of [readdir] or [readFile], written [read]: the instance is
    asked for the path of [name] alone; when it throws, the helper ends there
    with what it threw; when it answers a path, the file system is called
    next, with that path and [options], and the helper ends as that call
    does. *)
Definition resolved_read (instance name : value) (options : list value)
    (read : value -> list value -> call) (s : W) (r : run) : Prop :=
  let '(answer, s1) := host (RunPath instance [name]) s in
  match answer with
  | Throw e => r = (Throw e, [RunPath instance [name]], s1)
  | Normal path =>
      let '(result, s2) := host (read path options) s1 in
      r = (result, [RunPath instance [name]; read path options], s2)
  end.

End Files.
End Files.

(** ** More inputs for the demo host *)

(** A cluster on the demo host.  It lists two sub-instances, the service
    [web] and, under the name [stop], its own hook; its default instance is
    the service [web].  Its [start] is [boot], which the demo host does not
    know, so the cluster does not start. *)
Module Cluster.

Definition web_service : value := VHost "Service" 7.

Definition instance : Integration.Instance :=
  {| Integration.baseURL := VStr "http://localhost";
     Integration.start := VFunction "boot";
     Integration.stop := VFunction "stop";
     Integration.checkStopped := VUndefined;
     Integration.instances := Some ["web"; "stop"];
     Integration.members := {["web" := web_service]};
     Integration.defaultInstance := web_service |}.



(** The context [new TAPContextGot(instance)] of part_000 builds from
    state 0. *)
Definition this : TAPContextGot :=
  {| httpError := httpError_init;
     genericGotOptions :=
       <["cache" := VHost "Map" 0]>
         (<["timeout" := VNum 10000]> (<["cookieJar" := VHost "CookieJar" 1]> ∅));
     integrationInstance := instance;
     instanceProps := <["stop" := VFunction "stop"]> {["web" := web_service]};
     defaultInstance := web_service |}.

(** A context whose default options were emptied. *)
Definition jarless : TAPContextGot :=
  {| httpError := httpError_init;
     genericGotOptions := ∅;
     integrationInstance := instance;
     instanceProps := ∅;
     defaultInstance := VUndefined |}.

(** A test case no context was attached to. *)
Definition bare : TestCase := {| context := None |}.

(** [{timeout: 500, headers: {'content-type': 'text/plain'}, body: widget}] *)
Definition typed_options : obj :=
  <["timeout" := VNum 500]>
    (<["headers" := VObject {["content-type" := VStr "text/plain"]}]>
       {["body" := Demo.widget]}).

(** The service answers the path of a name under [/srv]; the file system
    lists one entry for every directory and has no file. *)
Definition files (c : Files.call) (n : nat) : completion value * nat :=
  (match c with
   | Files.RunPath _ [VStr name] => Normal (VStr ("/srv/" ++ name))
   | Files.RunPath _ _ => Throw (VError "TypeError" "The path must be a string")
   | Files.Readdir _ _ => Normal (VObject {["0" := VStr "access.log"]})
   | Files.ReadFile _ _ => Throw (VError "Error" "ENOENT: no such file or directory")
   end, S n).

(** A service that answers every request with a page that is not JSON. *)
Definition garbled (c : call) (n : nat) : completion value * nat :=
  (match c with
   | Got _ _ | GotPost _ _ => Normal (VObject {["body" := VStr "<html>"]})
   | JSONParse _ => Throw (VError "SyntaxError" "Unexpected token < in JSON at position 0")
   | JSONStringify _ => Normal (VStr "{}")
   | _ => Normal VUndefined
   end, S n).

End Cluster.
(** * Theorems *)

(** ** Runs and stages *)

Section Facts.
Context {W : Type} (host : call -> W -> completion value * W).

Lemma withBody_stages (this : TAPContextGot) (method : string) (path : value) (o : obj) :
  Part000._withBody host this method path (VObject o) =
  body_path host (merged this method o) (Got (url_of this path)).
Proof. reflexivity. Qed.

Lemma post_stages (this : TAPContextGot) (path : value) (o : obj) :
  IndexJs.post host this path (VObject o) =
  body_path host (merged_post this o) (GotPost (url_of this path)).
Proof. reflexivity. Qed.

Lemma resolve_stage_cases (m : obj) (w : world W) :
  resolve_stage host m w =
  match as_function (get m "body") with
  | Some f => (body <- Run.perform host (Invoke f) ;; ret (<["body" := body]> m)) w
  | None => ret m w
  end.
Proof. unfold resolve_stage. destruct (get m "body"); reflexivity. Qed.

Lemma encode_stage_cases (m : obj) (w : world W) :
  encode_stage host m w =
  match as_multipart (get m "body") with
  | Some data =>
      (buffer <- Run.perform host (MultipartBuffer data) ;;
       headers <- Run.perform host (MultipartGetHeaders data false) ;;
       ret (<["headers" :=
                VObject (own_props (get m "headers") ∪ own_props headers)]>
              (<["body" := buffer]> m))) w
  | None =>
      if not_strictly_false (get m "json") then
        (body <- Run.perform host (JSONStringify (get m "body")) ;;
         ret (<["headers" :=
                  VObject (own_props (get m "headers")
                           ∪ {["Content-Type" := VStr "application/json"]})]>
                (<["body" := body]> m))) w
      else ret m w
  end.
Proof.
  unfold encode_stage, spread, Run.bind, Run.perform, Run.ret, get.
  destruct (default VUndefined (m !! "body")); cbn [as_multipart];
    try (destruct (not_strictly_false _); [|reflexivity];
         destruct (host _ _) as [[?|?] ?]; [|reflexivity];
         rewrite lookup_insert_ne by discriminate; reflexivity).
  destruct (host _ _) as [[?|?] ?]; [|reflexivity].
  cbn [trace hstate].
  destruct (host _ _) as [[?|?] ?]; [|reflexivity].
  rewrite lookup_insert_ne by discriminate.
  rewrite (right_id_L ∅ (∪)). reflexivity.
Qed.

End Facts.

Lemma get_insert_eq (m : obj) (k : string) (v : value) : get (<[k := v]> m) k = v.
Proof. unfold get. by rewrite lookup_insert_eq. Qed.

Lemma get_insert_ne (m : obj) (k k' : string) (v : value) :
  k <> k' -> get (<[k := v]> m) k' = get m k'.
Proof. intros H. unfold get. by rewrite lookup_insert_ne. Qed.

(** Unfolding of the operations of a run, and one step of a run: a case on
    the next thing the run depends on. *)
Ltac run_simpl :=
  unfold Run.bind, Run.perform, Run.lift, Run.ret, Run.throw, Run.try_catch, Run.settle;
  cbn [trace hstate app fst snd];
  rewrite ?get_insert_eq;
  repeat rewrite get_insert_ne by discriminate.

Ltac run_step host :=
  run_simpl;
  match goal with
  | |- context [host ?c ?s] =>
      let r := fresh "r" in
      let s' := fresh "s" in
      let E := fresh "Ehost" in
      destruct (host c s) as [r s'] eqn:E; destruct r
  | |- context [as_function ?v] => destruct (as_function v) eqn:?
  | |- context [as_multipart ?v] => destruct (as_multipart v) eqn:?
  | |- context [if not_strictly_false ?v then _ else _] =>
      destruct (not_strictly_false v) eqn:?
  | |- context [match get_prop ?v ?k with _ => _ end] =>
      destruct (get_prop v k) eqn:?
  end; run_simpl.

(** ** The options handed to the transport *)

Section Requests.
Context {W : Type} (host : call -> W -> completion value * W).

(** A property of the merged options that assigning [body] and [headers]
    keeps holds of every request of the body-bearing path, and a call that
    returns has made exactly one request. *)
Lemma body_path_requests (P : obj -> Prop) (mk : obj -> call) (m : obj) (s : W) :
  (forall o, request_of (mk o) = Some o) ->
  P m ->
  (forall o v, P o -> P (<["body" := v]> o)) ->
  (forall o v, P o -> P (<["headers" := v]> o)) ->
  let '(r, w') := body_path host m mk (start_world s) in
  Forall P (requests (trace w')) /\
  (forall v, r = Normal v -> length (requests (trace w')) = 1).
Proof.
  intros Hmk Hm Hb Hh.
  unfold body_path, send_stage, start_world.
  unfold Run.bind at 1 2.
  rewrite resolve_stage_cases.
  repeat first [ rewrite encode_stage_cases | run_step host ].
  all: unfold requests; cbn [omap list_omap fst]; rewrite ?Hmk;
    cbn [omap list_omap fst length request_of].
  all: split; [ repeat constructor; auto | try discriminate; auto ].
Qed.

Lemma merged_no_cache (this : TAPContextGot) (method : string) (o : obj) :
  truthy (get o "cache") = false -> merged this method o !! "cache" = None.
Proof. intros H. unfold merged. rewrite H. apply lookup_delete_eq. Qed.

Lemma merged_post_no_cache (this : TAPContextGot) (o : obj) :
  truthy (get o "cache") = false -> merged_post this o !! "cache" = None.
Proof. intros H. unfold merged_post. rewrite H. apply lookup_delete_eq. Qed.

Lemma truthy_get_Some (o : obj) (k : string) :
  truthy (get o k) = true -> o !! k = Some (get o k).
Proof. unfold get. destruct (o !! k); [reflexivity | discriminate]. Qed.

Lemma merged_cache_is_callers (this : TAPContextGot) (method : string) (o : obj) (v : value) :
  merged this method o !! "cache" = Some v -> o !! "cache" = Some v /\ truthy v = true.
Proof.
  unfold merged. destruct (truthy (get o "cache")) eqn:E.
  - rewrite lookup_insert_ne by discriminate.
    rewrite (lookup_union_Some_l _ _ _ _ (truthy_get_Some _ _ E)).
    intros [= <-]. split; [by apply truthy_get_Some | exact E].
  - by rewrite lookup_delete_eq.
Qed.

Lemma merged_post_cache_is_callers (this : TAPContextGot) (o : obj) (v : value) :
  merged_post this o !! "cache" = Some v -> o !! "cache" = Some v /\ truthy v = true.
Proof.
  unfold merged_post. destruct (truthy (get o "cache")) eqn:E.
  - rewrite (lookup_union_Some_l _ _ _ _ (truthy_get_Some _ _ E)).
    intros [= <-]. split; [by apply truthy_get_Some | exact E].
  - by rewrite lookup_delete_eq.
Qed.

Lemma withBody_no_cache (this : TAPContextGot) (method : string) (path : value) (o : obj)
    (s : W) :
  truthy (get o "cache") = false ->
  let '(r, w') := Part000._withBody host this method path (VObject o) (start_world s) in
  Forall (fun request : obj => request !! "cache" = None) (requests (trace w')) /\
  (forall v, r = Normal v -> length (requests (trace w')) = 1).
Proof.
  intros H. rewrite withBody_stages.
  apply (body_path_requests (fun request => request !! "cache" = None)
           (Got (url_of this path))).
  - reflexivity.
  - by apply merged_no_cache.
  - intros. by rewrite lookup_insert_ne.
  - intros. by rewrite lookup_insert_ne.
Qed.

Lemma post_no_cache (this : TAPContextGot) (path : value) (o : obj) (s : W) :
  truthy (get o "cache") = false ->
  let '(r, w') := IndexJs.post host this path (VObject o) (start_world s) in
  Forall (fun request : obj => request !! "cache" = None) (requests (trace w')) /\
  (forall v, r = Normal v -> length (requests (trace w')) = 1).
Proof.
  intros H. rewrite post_stages.
  apply (body_path_requests (fun request => request !! "cache" = None)
           (GotPost (url_of this path))).
  - reflexivity.
  - by apply merged_post_no_cache.
  - intros. by rewrite lookup_insert_ne.
  - intros. by rewrite lookup_insert_ne.
Qed.

(** C3. For a call of the body-bearing operation ([_withBody], which [post]
    and [put] call, and [post] of index.js) whose options carry a [cache]
    field that is falsy, no request handed to the transport has a [cache]
    key, whatever the default options of the context hold; and a call that
    returns has handed over exactly one request. *)
Theorem falsy_cache_is_removed (this : TAPContextGot) (method : string) (path : value)
    (o : obj) (c : value) (s : W) :
  o !! "cache" = Some c ->
  truthy c = false ->
  sends_no_cache (Part000._withBody host this method path (VObject o) (start_world s))
  /\ sends_no_cache (IndexJs.post host this path (VObject o) (start_world s)).
Proof.
  intros Hc Hf.
  assert (truthy (get o "cache") = false) as H by (unfold get; by rewrite Hc).
  split; [by apply withBody_no_cache | by apply post_no_cache].
Qed.

Lemma withBody_cache_only_from (this : TAPContextGot) (method : string) (path : value)
    (o : obj) (s : W) :
  cache_only_from o
    (trace (snd (Part000._withBody host this method path (VObject o) (start_world s)))).
Proof.
  pose proof (body_path_requests
                (fun request : obj => forall v, request !! "cache" = Some v ->
                                      o !! "cache" = Some v /\ truthy v = true)
                (Got (url_of this path)) (merged this method o) s) as H.
  rewrite <- withBody_stages in H.
  destruct (Part000._withBody host this method path (VObject o) (start_world s)) as [r w'].
  destruct H as [H _].
  - reflexivity.
  - apply merged_cache_is_callers.
  - intros o' v Ho' v'. rewrite lookup_insert_ne by discriminate. apply Ho'.
  - intros o' v Ho' v'. rewrite lookup_insert_ne by discriminate. apply Ho'.
  - intros request v Hin. rewrite Forall_forall in H. by apply H.
Qed.

Lemma post_cache_only_from (this : TAPContextGot) (path : value) (o : obj) (s : W) :
  cache_only_from o
    (trace (snd (IndexJs.post host this path (VObject o) (start_world s)))).
Proof.
  pose proof (body_path_requests
                (fun request : obj => forall v, request !! "cache" = Some v ->
                                      o !! "cache" = Some v /\ truthy v = true)
                (GotPost (url_of this path)) (merged_post this o) s) as H.
  rewrite <- post_stages in H.
  destruct (IndexJs.post host this path (VObject o) (start_world s)) as [r w'].
  destruct H as [H _].
  - reflexivity.
  - apply merged_post_cache_is_callers.
  - intros o' v Ho' v'. rewrite lookup_insert_ne by discriminate. apply Ho'.
  - intros o' v Ho' v'. rewrite lookup_insert_ne by discriminate. apply Ho'.
  - intros request v Hin. rewrite Forall_forall in H. by apply H.
Qed.

Lemma default_cache_lookup (this : TAPContextGot) (options : value) :
  own_props options !! "cache" = None ->
  spread (spread ∅ (VObject (genericGotOptions this))) options !! "cache"
  = genericGotOptions this !! "cache".
Proof.
  intros H. unfold spread. cbn [own_props].
  rewrite (lookup_union_r _ _ _ H). by rewrite (right_id_L ∅ (∪)).
Qed.

Lemma delete_options_no_cache (options : value) :
  own_props options !! "cache" = None ->
  own_props (VObject (<["method" := VStr "DELETE"]> (spread ∅ options))) !! "cache" = None.
Proof.
  intros H. cbn [own_props]. rewrite lookup_insert_ne by discriminate.
  unfold spread. by rewrite (right_id_L ∅ (∪)).
Qed.

Lemma get_path_inherits_cache (this : TAPContextGot) (path options : value) (s : W) :
  own_props options !! "cache" = None ->
  inherits_cache this (trace (snd (Part000.api host this path options (start_world s)))) /\
  inherits_cache this (trace (snd (Part000.json host this path options (start_world s)))) /\
  inherits_cache this (trace (snd (Part000.delete host this path options (start_world s)))) /\
  inherits_cache this (trace (snd (IndexJs.api host this path options (start_world s)))) /\
  inherits_cache this (trace (snd (IndexJs.json host this path options (start_world s)))).
Proof.
  intros H. pose proof (delete_options_no_cache _ H) as H'.
  unfold Part000.json, Part000.delete, IndexJs.json, Part000.api, IndexJs.api, start_world.
  run_simpl.
  repeat split; repeat run_step host;
    (eexists; split; [reflexivity | by apply default_cache_lookup]).
Qed.

(** C10. In the body-bearing operation the cache is removed whenever the
    caller's [cache] is falsy, an omitted [cache] (read as [undefined])
    included; so a request of that path has a [cache] only when the caller
    gave that value and it is truthy.  The operations [api], [json] and
    [delete] make one request, which has the [cache] of the default options
    whenever the caller's options have no [cache] of their own. *)
Theorem body_path_drops_default_cache (this : TAPContextGot) (method : string)
    (path options : value) (o : obj) (s : W) :
  (truthy (get o "cache") = false ->
   no_cache (trace (snd (Part000._withBody host this method path (VObject o) (start_world s))))
   /\ no_cache (trace (snd (IndexJs.post host this path (VObject o) (start_world s)))))
  /\
  (cache_only_from o
     (trace (snd (Part000._withBody host this method path (VObject o) (start_world s))))
   /\ cache_only_from o
        (trace (snd (IndexJs.post host this path (VObject o) (start_world s)))))
  /\
  (own_props options !! "cache" = None ->
   inherits_cache this (trace (snd (Part000.api host this path options (start_world s)))) /\
   inherits_cache this (trace (snd (Part000.json host this path options (start_world s)))) /\
   inherits_cache this (trace (snd (Part000.delete host this path options (start_world s)))) /\
   inherits_cache this (trace (snd (IndexJs.api host this path options (start_world s)))) /\
   inherits_cache this (trace (snd (IndexJs.json host this path options (start_world s))))).
Proof.
  split; [|split].
  - intros H. unfold no_cache. split.
    + pose proof (withBody_no_cache this method path o s H) as G.
      destruct (Part000._withBody _ _ _ _ _ _) as [r w']. apply G.
    + pose proof (post_no_cache this path o s H) as G.
      destruct (IndexJs.post _ _ _ _ _) as [r w']. apply G.
  - split; [apply withBody_cache_only_from | apply post_cache_only_from].
  - apply get_path_inherits_cache.
Qed.

End Requests.

(** ** The body of a request *)

Section BodyFacts.
Context {W : Type} (host : call -> W -> completion value * W).

(** The first stage, when the body resolves. *)
Lemma resolve_stage_resolved (m : obj) (s s1 : W) (v : value) (pre : list entry) :
  resolved_body host (get m "body") s = Some (v, s1, pre) ->
  resolve_stage host m (start_world s)
  = (Normal (with_resolved m v), {| trace := pre; hstate := s1 |})
  /\ get (with_resolved m v) "body" = v.
Proof.
  unfold resolved_body, with_resolved. rewrite resolve_stage_cases.
  destruct (as_function (get m "body")) as [f|] eqn:Ef.
  - unfold start_world. run_simpl.
    destruct (host (Invoke f) s) as [[v'|e] s'] eqn:E; [|discriminate].
    intros [= -> -> <-]. split; reflexivity.
  - intros [= <- <- <-]. split; reflexivity.
Qed.

Lemma outgoing_app (t1 t2 : list entry) :
  outgoing (t1 ++ t2) = (outgoing t1 ++ outgoing t2)%list.
Proof. unfold outgoing, calls. by rewrite map_app, List.filter_app. Qed.

Lemma calls_app (t1 t2 : list entry) : calls (t1 ++ t2) = (calls t1 ++ calls t2)%list.
Proof. apply map_app. Qed.

Lemma resolved_body_outgoing (b v : value) (s s1 : W) (pre : list entry) :
  resolved_body host b s = Some (v, s1, pre) -> outgoing pre = calls pre.
Proof.
  unfold resolved_body. destruct (as_function b) as [f|].
  - destruct (host (Invoke f) s) as [[v'|e] s']; [|discriminate].
    by intros [= <- <- <-].
  - by intros [= <- <- <-].
Qed.

Lemma not_multipart (v : value) : is_multipart v = false -> as_multipart v = None.
Proof. by destruct v. Qed.

Lemma with_resolved_insert (m : obj) (v b : value) :
  <["body" := b]> (with_resolved m v) = <["body" := b]> m.
Proof.
  unfold with_resolved. destruct (as_function _); [apply insert_insert_eq | reflexivity].
Qed.

Lemma with_resolved_get (m : obj) (v : value) (k : string) :
  k <> "body" -> get (with_resolved m v) k = get m k.
Proof.
  intros H. unfold with_resolved. destruct (as_function _); [|reflexivity].
  by apply get_insert_ne.
Qed.

End BodyFacts.

Ltac finish_outgoing Hmk Hres :=
  rewrite !outgoing_app, (resolved_body_outgoing _ _ _ _ _ _ Hres);
  unfold outgoing; cbn [calls map fst List.filter is_parse negb];
  rewrite ?Hmk; cbn [negb];
  rewrite <- ?app_assoc; cbn [app]; rewrite ?app_nil_r; reflexivity.

Section Bodies.
Context {W : Type} (host : call -> W -> completion value * W).

Lemma body_path_multipart (m : obj) (mk : obj -> call) (h : string) (s s1 s2 s3 : W)
    (pre : list entry) (buffer headers : value) :
  (forall o, is_parse (mk o) = false) ->
  resolved_body host (get m "body") s = Some (VMultipart h, s1, pre) ->
  host (MultipartBuffer h) s1 = (Normal buffer, s2) ->
  host (MultipartGetHeaders h false) s2 = (Normal headers, s3) ->
  outgoing (trace (snd (body_path host m mk (start_world s))))
  = (calls pre ++
     [MultipartBuffer h; MultipartGetHeaders h false;
      mk (<["headers" := VObject (own_props (get m "headers") ∪ own_props headers)]>
            (<["body" := buffer]> m))])%list.
Proof.
  intros Hmk Hres Hbuf Hhdr.
  destruct (resolve_stage_resolved host _ _ _ _ _ Hres) as [Hrun Hbody].
  unfold body_path, send_stage. unfold Run.bind at 1 2. rewrite Hrun.
  rewrite encode_stage_cases, Hbody. cbn [as_multipart].
  run_simpl. rewrite Hbuf. run_simpl. rewrite Hhdr. run_simpl.
  rewrite with_resolved_insert, with_resolved_get by discriminate.
  repeat run_step host.
  all: finish_outgoing Hmk Hres.
Qed.

Lemma body_path_json (m : obj) (mk : obj -> call) (s s1 s2 : W) (v encoded : value)
    (pre : list entry) :
  (forall o, is_parse (mk o) = false) ->
  resolved_body host (get m "body") s = Some (v, s1, pre) ->
  is_multipart v = false ->
  not_strictly_false (get m "json") = true ->
  host (JSONStringify v) s1 = (Normal encoded, s2) ->
  outgoing (trace (snd (body_path host m mk (start_world s))))
  = (calls pre ++
     [JSONStringify v;
      mk (<["headers" :=
              VObject (own_props (get m "headers")
                       ∪ {["Content-Type" := VStr "application/json"]})]>
            (<["body" := encoded]> m))])%list.
Proof.
  intros Hmk Hres Hmp Hjson Henc.
  destruct (resolve_stage_resolved host _ _ _ _ _ Hres) as [Hrun Hbody].
  unfold body_path, send_stage. unfold Run.bind at 1 2. rewrite Hrun.
  rewrite encode_stage_cases, Hbody, (not_multipart _ Hmp).
  rewrite !with_resolved_get by discriminate. rewrite Hjson.
  run_simpl. rewrite Henc. run_simpl.
  rewrite with_resolved_insert.
  repeat run_step host.
  all: finish_outgoing Hmk Hres.
Qed.

Lemma body_path_verbatim (m : obj) (mk : obj -> call) (s s1 : W) (v : value)
    (pre : list entry) :
  (forall o, is_parse (mk o) = false) ->
  resolved_body host (get m "body") s = Some (v, s1, pre) ->
  is_multipart v = false ->
  get m "json" = VBool false ->
  outgoing (trace (snd (body_path host m mk (start_world s))))
  = (calls pre ++ [mk (with_resolved m v)])%list.
Proof.
  intros Hmk Hres Hmp Hjson.
  destruct (resolve_stage_resolved host _ _ _ _ _ Hres) as [Hrun Hbody].
  unfold body_path, send_stage. unfold Run.bind at 1 2. rewrite Hrun.
  rewrite encode_stage_cases, Hbody, (not_multipart _ Hmp).
  rewrite !with_resolved_get by discriminate. rewrite Hjson.
  cbn [not_strictly_false]. run_simpl.
  repeat run_step host.
  all: finish_outgoing Hmk Hres.
Qed.
Lemma merged_get (this : TAPContextGot) (method : string) (o : obj) (k : string) :
  k <> "method" -> k <> "cache" ->
  get (merged this method o) k = get (merged_post this o) k
  /\ (forall v, o !! k = Some v -> get (merged_post this o) k = v).
Proof.
  intros Hm Hc. unfold merged, merged_post, get.
  destruct (truthy _);
    rewrite ?lookup_delete_ne by congruence;
    rewrite lookup_insert_ne by congruence;
    (split; [reflexivity | intros v Hv; by rewrite (lookup_union_Some_l _ _ _ _ Hv)]).
Qed.

(** C1. When the resolved body of a call of the body-bearing operation is a
    multipart handle [h], and its buffer and headers are obtained, the calls
    of the run other than [JSON.parse] are: the resolution of the body,
    [h.buffer()], [h.getHeaders(false)] and the transport call.  No
    [JSON.stringify] is among them, whatever the [json] option is.  The
    request carries the buffer as [body] and, as [headers], the headers of
    the handle under the headers of the merged options, which are the
    caller's when the caller gave any: a key of both keeps the caller's
    value. *)
Theorem multipart_body_bypasses_json (this : TAPContextGot) (method : string)
    (path : value) (o : obj) (h : string) (s s1 s2 s3 : W) (pre : list entry)
    (buffer headers : value) :
  (resolved_body host (get (merged this method o) "body") s = Some (VMultipart h, s1, pre) ->
   host (MultipartBuffer h) s1 = (Normal buffer, s2) ->
   host (MultipartGetHeaders h false) s2 = (Normal headers, s3) ->
   multipart_run h pre buffer headers o (merged this method o) (Got (url_of this path))
     (trace (snd (Part000._withBody host this method path (VObject o) (start_world s)))))
  /\
  (resolved_body host (get (merged_post this o) "body") s = Some (VMultipart h, s1, pre) ->
   host (MultipartBuffer h) s1 = (Normal buffer, s2) ->
   host (MultipartGetHeaders h false) s2 = (Normal headers, s3) ->
   multipart_run h pre buffer headers o (merged_post this o) (GotPost (url_of this path))
     (trace (snd (IndexJs.post host this path (VObject o) (start_world s))))).
Proof.
  split; intros Hres Hbuf Hhdr; unfold multipart_run; cbv zeta.
  - split; [|split; [|split]].
    + rewrite withBody_stages. by apply (body_path_multipart _ _ _ s s1 s2 s3).
    + by rewrite get_insert_ne, get_insert_eq.
    + intros hv Hhv.
      destruct (merged_get this method o "headers") as [-> G]; [done..|]. by apply G.
    + intros k v Hk. by apply lookup_union_Some_l.
  - split; [|split; [|split]].
    + rewrite post_stages. by apply (body_path_multipart _ _ _ s s1 s2 s3).
    + by rewrite get_insert_ne, get_insert_eq.
    + intros hv Hhv.
      destruct (merged_get this "POST" o "headers") as [_ G]; [done..|]. by apply G.
    + intros k v Hk. by apply lookup_union_Some_l.
Qed.

End Bodies.

Section Encoding.
Context {W : Type} (host : call -> W -> completion value * W).

(** C6. When the resolved body [v] of a call of the body-bearing operation
    is not a multipart handle: if the [json] option is not strictly
    [false], the body is given to [JSON.stringify] and, when that returns
    [encoded], the request carries [encoded] as [body] and, as [headers],
    [Content-Type: application/json] under the headers of the merged
    options (a [Content-Type] of the caller is kept); if [json] is strictly
    [false], nothing is encoded and the request is the merged options with
    the resolved body, headers untouched.  The headers of the merged options
    are the caller's when the caller gave any. *)
Theorem json_option_selects_encoding (this : TAPContextGot) (method : string)
    (path : value) (o : obj) (v : value) (s s1 : W) (pre : list entry) :
  (resolved_body host (get (merged this method o) "body") s = Some (v, s1, pre) ->
   is_multipart v = false ->
   let m := merged this method o in
   let t := trace (snd (Part000._withBody host this method path (VObject o)
                          (start_world s))) in
   (not_strictly_false (get m "json") = true ->
    forall encoded s2, host (JSONStringify v) s1 = (Normal encoded, s2) ->
    encoded_run v encoded pre m (Got (url_of this path)) t)
   /\ (get m "json" = VBool false -> verbatim_run v pre m (Got (url_of this path)) t)
   /\ (forall hv, o !! "headers" = Some hv -> get m "headers" = hv))
  /\
  (resolved_body host (get (merged_post this o) "body") s = Some (v, s1, pre) ->
   is_multipart v = false ->
   let m := merged_post this o in
   let t := trace (snd (IndexJs.post host this path (VObject o) (start_world s))) in
   (not_strictly_false (get m "json") = true ->
    forall encoded s2, host (JSONStringify v) s1 = (Normal encoded, s2) ->
    encoded_run v encoded pre m (GotPost (url_of this path)) t)
   /\ (get m "json" = VBool false -> verbatim_run v pre m (GotPost (url_of this path)) t)
   /\ (forall hv, o !! "headers" = Some hv -> get m "headers" = hv)).
Proof.
  unfold encoded_run, verbatim_run.
  split; intros Hres Hmp; cbv zeta.
  - rewrite withBody_stages. split; [|split].
    + intros Hjson encoded s2 Henc. by apply (body_path_json _ _ _ s s1 s2).
    + intros Hjson. split; [by apply (body_path_verbatim _ _ _ s s1)|].
      split; [apply (resolve_stage_resolved host _ _ _ _ _ Hres)|].
      by apply with_resolved_get.
    + intros hv Hhv.
      destruct (merged_get this method o "headers") as [-> G]; [done..|]. by apply G.
  - rewrite post_stages. split; [|split].
    + intros Hjson encoded s2 Henc. by apply (body_path_json _ _ _ s s1 s2).
    + intros Hjson. split; [by apply (body_path_verbatim _ _ _ s s1)|].
      split; [apply (resolve_stage_resolved host _ _ _ _ _ Hres)|].
      by apply with_resolved_get.
    + intros hv Hhv.
      destruct (merged_get this "POST" o "headers") as [_ G]; [done..|]. by apply G.
Qed.

Lemma merged_body_function (this : TAPContextGot) (method : string) (o : obj) (f : string) :
  o !! "body" = Some (VFunction f) ->
  as_function (get (merged this method o) "body") = Some f
  /\ as_function (get (merged_post this o) "body") = Some f.
Proof.
  intros H. destruct (merged_get this method o "body") as [-> G]; [done..|].
  by rewrite (G _ H).
Qed.

Lemma body_path_deferred (m : obj) (mk : obj -> call) (f : string) (s : W) :
  (forall o, is_invocation (mk o) = false) ->
  (forall o, request_of (mk o) = Some o) ->
  as_function (get m "body") = Some f ->
  deferred_run host f s m (body_path host m mk (start_world s)).
Proof.
  intros Hmk Hreq Hf. unfold deferred_run.
  unfold body_path, send_stage, start_world. unfold Run.bind at 1 2.
  rewrite resolve_stage_cases, Hf. run_simpl.
  destruct (host (Invoke f) s) as [[v|e] s1] eqn:E; run_simpl.
  all: repeat first [ rewrite encode_stage_cases; run_simpl | run_step host ].
  all: eexists; split; [reflexivity|];
    cbn [calls map fst List.filter is_invocation head]; rewrite ?Hmk;
    (split; [reflexivity|]); try (split; reflexivity); try reflexivity.
  all: unfold requests; cbn [omap list_omap fst]; rewrite Hreq; reflexivity.
Qed.

(** C2. When the [body] option of a call of the body-bearing operation is a
    function [f], the first call of the run is the invocation of [f] and no
    other invocation follows, so [f] is invoked exactly once and before the
    body is classified.  What is classified is what [f] returned: a
    multipart handle is asked for its buffer, any other value is given to
    [JSON.stringify], or, when [json] is strictly [false], sent as the
    [body] of the request.  When [f] throws, the call ends with what [f]
    threw and nothing else is called. *)
Theorem deferred_body_is_invoked_once (this : TAPContextGot) (method : string)
    (path : value) (o : obj) (f : string) (s : W) :
  o !! "body" = Some (VFunction f) ->
  deferred_run host f s (merged this method o)
    (Part000._withBody host this method path (VObject o) (start_world s))
  /\ deferred_run host f s (merged_post this o)
       (IndexJs.post host this path (VObject o) (start_world s)).
Proof.
  intros H. destruct (merged_body_function this method o f H) as [H1 H2].
  split.
  - rewrite withBody_stages. by apply body_path_deferred.
  - rewrite post_stages. by apply body_path_deferred.
Qed.

End Encoding.

(** ** The operations without a body, and errors *)

Section Errors.
Context {W : Type} (host : call -> W -> completion value * W).

Lemma delete_request (this : TAPContextGot) (options : value) :
  spread (spread ∅ (VObject (genericGotOptions this)))
         (VObject (<["method" := VStr "DELETE"]> (spread ∅ options)))
  = <["method" := VStr "DELETE"]> (own_props options) ∪ genericGotOptions this.
Proof. unfold spread. cbn [own_props]. by rewrite !(right_id_L ∅ (∪)). Qed.

(** C7. A call of [delete] hands the transport one request: the given
    path, with the caller's options over the default options and [method]
    forced to [DELETE].  The options are not looked into, so a [body] among
    them goes to the transport as it is.  The run makes no call of the
    body-bearing path (no invocation of a body, no [buffer()] or
    [getHeaders()], no [JSON.stringify]): after the transport call only
    [JSON.parse] of the body of the response follows, and its completion is
    what [delete] returns. *)
Theorem delete_has_no_body_path (this : TAPContextGot) (path options : value) (s : W) :
  let request := <["method" := VStr "DELETE"]> (own_props options) ∪ genericGotOptions this in
  let '(r, w') := Part000.delete host this path options (start_world s) in
  let '(response, s1) := host (Got (url_of this path) request) s in
  request !! "method" = Some (VStr "DELETE")
  /\ List.filter is_body_step (calls (trace w')) = []
  /\ match response with
     | Throw e => r = Throw e /\ trace w' = [(Got (url_of this path) request, Throw e)]
     | Normal answer =>
         match get_prop answer "body" with
         | Throw e =>
             r = Throw e /\ trace w' = [(Got (url_of this path) request, Normal answer)]
         | Normal body =>
             let '(parsed, _) := host (JSONParse body) s1 in
             r = parsed
             /\ trace w' = [(Got (url_of this path) request, Normal answer);
                            (JSONParse body, parsed)]
         end
     end.
Proof.
  intros request.
  unfold Part000.delete, Part000.api, start_world. rewrite delete_request.
  fold request. fold (url_of this path). run_simpl.
  destruct (host (Got (url_of this path) request) s) as [[answer|e] s1] eqn:E; run_simpl.
  - destruct (get_prop answer "body") as [body|e] eqn:Eb; run_simpl.
    + destruct (host (JSONParse body) s1) as [parsed s2] eqn:Ep. cbn [fst snd].
      split; [by apply lookup_union_Some_l, lookup_insert_eq|]. by destruct parsed.
    + split; [by apply lookup_union_Some_l, lookup_insert_eq|]. done.
  - split; [by apply lookup_union_Some_l, lookup_insert_eq|]. done.
Qed.

Lemma withBody_any_options (this : TAPContextGot) (method : string) (path options : value)
    (w : world W) :
  Part000._withBody host this method path options w =
  match get_prop options "cache" with
  | Normal cache =>
      let m := <["method" := VStr method]>
                 (spread (spread {["headers" := VObject ∅]}
                                 (VObject (genericGotOptions this))) options) in
      body_path host (if truthy cache then m else base.delete "cache" m)
                (Got (url_of this path)) w
  | Throw e => (Throw e, w)
  end.
Proof. unfold Part000._withBody. unfold Run.bind at 1. unfold lift. by destruct (get_prop _ _). Qed.

Lemma post_any_options (this : TAPContextGot) (path options : value) (w : world W) :
  IndexJs.post host this path options w =
  match get_prop options "cache" with
  | Normal cache =>
      let m := spread (spread {["headers" := VObject ∅]}
                              (VObject (genericGotOptions this))) options in
      body_path host (if truthy cache then m else base.delete "cache" m)
                (GotPost (url_of this path)) w
  | Throw e => (Throw e, w)
  end.
Proof. unfold IndexJs.post. unfold Run.bind at 1. unfold lift. by destruct (get_prop _ _). Qed.

Ltac settle_thrown :=
  let Hin := fresh "Hin" in
  intros ? ? Hin;
  repeat (apply elem_of_cons in Hin; destruct Hin as [Hin|Hin];
          [ try discriminate Hin; injection Hin as -> ->; split; reflexivity |]);
  by apply elem_of_nil in Hin.

Lemma body_path_propagates (m : obj) (mk : obj -> call) (s : W) :
  (forall o, is_parse (mk o) = false) ->
  let '(r, w') := body_path host m mk (start_world s) in
  propagates r (trace w') /\ returns_parsed r (trace w').
Proof.
  intros Hmk. unfold propagates, returns_parsed.
  unfold body_path, send_stage, start_world. unfold Run.bind at 1 2.
  rewrite resolve_stage_cases.
  repeat first [ rewrite encode_stage_cases; run_simpl | run_step host ].
  all: split; [settle_thrown|].
  all: intros text c' Hlast; cbn [last] in Hlast; simplify_eq; try reflexivity.
  all: match goal with
       | H : ?x = JSONParse _ |- _ =>
           assert (is_parse x = false) as Hp by apply Hmk;
           rewrite H in Hp; discriminate Hp
       end.
Qed.

Lemma get_path_propagates (request : call) (s : W) :
  is_parse request = false ->
  let '(r, w') := send_stage host request (start_world s) in
  propagates r (trace w') /\ returns_parsed r (trace w').
Proof.
  intros Hmk. unfold propagates, returns_parsed, send_stage, start_world.
  repeat run_step host.
  all: split; [settle_thrown|].
  all: intros text c' Hlast; cbn [last] in Hlast; simplify_eq; try reflexivity.
  all: discriminate Hmk.
Qed.

Lemma body_path_transport (P : obj -> Prop) (m : obj) (mk : obj -> call) (s : W) :
  (forall o, is_transport (mk o) = true) ->
  (forall o, is_body_step (mk o) = false) ->
  P m ->
  (forall o v, P o -> P (<["body" := v]> o)) ->
  (forall o v, P o -> P (<["headers" := v]> o)) ->
  let '(r, w') := body_path host m mk (start_world s) in
  (transport_calls (trace w') = [] /\ thrown_body_step (trace w') /\ exists e, r = Throw e)
  \/ (exists request,
        transport_calls (trace w') = [mk request] /\ P request
        /\ ~ thrown_body_step (trace w')).
Proof.
  intros Hmk Hstep Hm Hb Hh.
  unfold body_path, send_stage, start_world. unfold Run.bind at 1 2.
  rewrite resolve_stage_cases.
  repeat first [ rewrite encode_stage_cases; run_simpl | run_step host ].
  all: unfold transport_calls, thrown_body_step;
    cbn [calls map fst List.filter is_transport]; rewrite ?Hmk.
  all: first
    [ left; split; [reflexivity|]; split; [|by eexists];
      eexists _, _; split; [apply list_elem_of_In; cbn; eauto 8 | reflexivity]
    | right; eexists; split; [reflexivity|]; split; [by auto|];
      intros (c' & e' & Hin & Hc);
      repeat (apply elem_of_cons in Hin; destruct Hin as [Hin|Hin];
              [ try discriminate Hin; injection Hin as -> ->;
                try discriminate Hc; by rewrite Hstep in Hc |]);
      by apply elem_of_nil in Hin ].
Qed.

Ltac settle_parsed :=
  let Hin := fresh "Hin" in
  let Htr := fresh "Htr" in
  intros ? ? Hin Htr;
  repeat (apply elem_of_cons in Hin; destruct Hin as [Hin|Hin];
          [ try discriminate Hin; injection Hin as -> ->; try discriminate Htr;
            match goal with
            | H : get_prop ?v "body" = _ |- context [get_prop ?v "body"] => rewrite H
            end;
            first
              [ split; reflexivity
              | match goal with
                | |- exists earlier parsed, ?t = _ /\ _ => exists (take (length t - 2) t)
                end;
                eexists; split; reflexivity ] |]);
  by apply elem_of_nil in Hin.

Lemma body_path_parses (m : obj) (mk : obj -> call) (s : W) :
  (forall o, is_transport (mk o) = true) ->
  let '(r, w') := body_path host m mk (start_world s) in
  parses_response r (trace w').
Proof.
  intros Hmk. unfold parses_response.
  unfold body_path, send_stage, start_world. unfold Run.bind at 1 2.
  rewrite resolve_stage_cases.
  repeat first [ rewrite encode_stage_cases; run_simpl | run_step host ].
  all: settle_parsed.
Qed.

Lemma get_path_parses (request : call) (s : W) :
  is_transport request = true ->
  let '(r, w') := send_stage host request (start_world s) in
  parses_response r (trace w')
  /\ exists request' answer rest,
       trace w' = (request', answer) :: rest /\ is_transport request' = true.
Proof.
  intros Hmk. unfold parses_response, send_stage, start_world.
  repeat run_step host.
  all: split; [settle_parsed | by eexists _, _, _].
Qed.

Lemma body_path_unsent (m : obj) (mk : obj -> call) (s : W) :
  (forall o, is_transport (mk o) = true) ->
  (forall o, is_body_step (mk o) = false) ->
  let '(r, w') := body_path host m mk (start_world s) in
  transport_calls (trace w') = [] -> thrown_body_step (trace w').
Proof.
  intros Hmk Hstep.
  pose proof (body_path_transport (fun _ => True) m mk s Hmk Hstep I
                (fun _ _ _ => I) (fun _ _ _ => I)) as H.
  destruct (body_path host m mk (start_world s)) as [r w'].
  destruct H as [(_ & H & _)|(request & H & _)]; [done|].
  rewrite H. discriminate.
Qed.

(** C8. The operations [json], [post], [put] and [delete] (and [json] and
    [post] of index.js) catch nothing: whenever a call they make throws, be
    it the transport or [JSON.parse], that call is the last of the run and
    the operation ends with the very value that was thrown; and when the run
    ends in [JSON.parse], its completion, a thrown parse error just as a
    parsed value, is how the operation ends.  The response is always parsed:
    [json] and [delete] begin with the request, [post] and [put] send it
    unless the options are missing or a step that prepares the body threw,
    and whenever the transport answers, the body of the answer goes to
    [JSON.parse] in the next call, whose completion is how the operation
    ends, so a body that is not JSON ends the operation with the parse
    error. *)
Theorem request_errors_propagate (this : TAPContextGot) (path options : value) (s : W) :
  parsed_get (Part000.json host this path options (start_world s))
  /\ parsed_body options (Part000.post host this path options (start_world s))
  /\ parsed_body options (Part000.put host this path options (start_world s))
  /\ parsed_get (Part000.delete host this path options (start_world s))
  /\ parsed_get (IndexJs.json host this path options (start_world s))
  /\ parsed_body options (IndexJs.post host this path options (start_world s)).
Proof.
  unfold parsed_get, parsed_body, transparent.
  assert (forall r : completion value, propagates r [] /\ returns_parsed r []) as Hnil.
  { intros r. split; [intros c e Hin; by apply elem_of_nil in Hin | intros t c [=]]. }
  assert (forall r : completion value, parses_response r []) as Hnone.
  { intros r c a Hin. by apply elem_of_nil in Hin. }
  assert (forall (m : obj) (mk : obj -> call),
            (forall o, is_parse (mk o) = false) ->
            (forall o, is_transport (mk o) = true) ->
            (forall o, is_body_step (mk o) = false) ->
            let run := body_path host m mk (start_world s) in
            (let '(r, w') := run in propagates r (trace w') /\ returns_parsed r (trace w'))
            /\ (let '(r, w') := run in
                parses_response r (trace w')
                /\ (transport_calls (trace w') = [] ->
                    thrown_body_step (trace w') \/ nullish options = true))) as Hbody.
  { intros m mk H1 H2 H3. cbv zeta.
    pose proof (body_path_propagates m mk s H1) as Hp.
    pose proof (body_path_parses m mk s H2) as Hq.
    pose proof (body_path_unsent m mk s H2 H3) as Hu.
    destruct (body_path host m mk (start_world s)) as [r w'].
    split; [exact Hp|]. split; [exact Hq|]. intros E. left. by apply Hu. }
  assert (nullish options = true \/ exists x, get_prop options "cache" = Normal x) as Hopt.
  { destruct options; cbn; eauto. }
  refine (conj _ (conj _ (conj _ (conj _ (conj _ _))))).
  - split; [by apply (get_path_propagates (Got _ _)) | by apply (get_path_parses (Got _ _))].
  - unfold Part000.post. rewrite withBody_any_options.
    destruct (get_prop options "cache") eqn:E; [by apply Hbody|].
    destruct Hopt as [Hn|[x Hx]]; [|congruence].
    split; [apply Hnil|]. split; [apply Hnone|]. intros _. by right.
  - unfold Part000.put. rewrite withBody_any_options.
    destruct (get_prop options "cache") eqn:E; [by apply Hbody|].
    destruct Hopt as [Hn|[x Hx]]; [|congruence].
    split; [apply Hnil|]. split; [apply Hnone|]. intros _. by right.
  - split; [by apply (get_path_propagates (Got _ _)) | by apply (get_path_parses (Got _ _))].
  - split; [by apply (get_path_propagates (Got _ _)) | by apply (get_path_parses (Got _ _))].
  - rewrite post_any_options.
    destruct (get_prop options "cache") eqn:E; [by apply Hbody|].
    destruct Hopt as [Hn|[x Hx]]; [|congruence].
    split; [apply Hnil|]. split; [apply Hnone|]. intros _. by right.
Qed.

End Errors.

(** ** Setup and teardown *)

Lemma member_pattern (o : obj) (k source flags : string) :
  get o k = VRegExp source flags -> member o k = VRegExp source flags.
Proof. unfold get, member. by destruct (o !! k). Qed.




Section Lifecycle.
Context {W : Type} (host : call -> W -> completion value * W).




End Lifecycle.

(** ** The assertions *)

Section Assertions.
Context {W : Type} (host : call -> W -> completion value * W).

Lemma setup_test_asserts (instance : Integration.Instance) (tap0 : Tap W) (w : world W) :
  match Part000.setup_test host instance tap0 w with
  | (Normal tap, _) => asserts tap = asserts tap0
  | (Throw _, _) => True
  end
  /\ match IndexJs.setup_test host instance tap0 w with
     | (Normal tap, _) => asserts tap = asserts tap0
     | (Throw _, _) => True
     end.
Proof.
  unfold Part000.setup_test, IndexJs.setup_test, Part000.constructor, IndexJs.constructor.
  unfold optional_call.
  split; repeat run_step host; try done.
  all: repeat match goal with
       | |- context [Integration.instances ?i] => destruct (Integration.instances i); run_simpl
       | |- context [copy_instances ?i ?ids ?p] => destruct (copy_instances i ids p); run_simpl
       | |- context [Integration.start ?i] => destruct (Integration.start i); run_simpl
       | _ => run_step host
       end; try done.
Qed.

Lemma reports_app (t1 t2 : list entry) : reports (t1 ++ t2) = (reports t1 ++ reports t2)%list.
Proof. apply omap_app. Qed.

Lemma verdicts_app (t1 t2 : list entry) :
  verdicts (t1 ++ t2) = (verdicts t1 ++ verdicts t2)%list.
Proof. apply omap_app. Qed.

Lemma body_path_silent (m : obj) (mk : obj -> call) (s : W) :
  (forall o, report_of (mk o) = None) ->
  (forall o, verdict_of (mk o) = None) ->
  silent (trace (snd (body_path host m mk (start_world s)))).
Proof.
  intros Hr Hv. unfold silent.
  destruct (body_path host m mk (start_world s)) as [r w'] eqn:E. revert E.
  unfold body_path, send_stage, start_world. unfold Run.bind at 1 2.
  rewrite resolve_stage_cases.
  repeat first [ rewrite encode_stage_cases; run_simpl | run_step host ].
  all: intros [= <- <-]; unfold reports, verdicts;
    cbn [trace snd omap list_omap fst report_of verdict_of]; rewrite ?Hr, ?Hv; done.
Qed.

Lemma send_stage_silent (request : call) (s : W) :
  report_of request = None ->
  verdict_of request = None ->
  silent (trace (snd (send_stage host request (start_world s)))).
Proof.
  intros Hr Hv. unfold silent.
  destruct (send_stage host request (start_world s)) as [r w'] eqn:E. revert E.
  unfold send_stage, start_world.
  repeat run_step host.
  all: intros [= <- <-]; unfold reports, verdicts;
    cbn [trace snd omap list_omap fst report_of verdict_of]; rewrite ?Hr, ?Hv; done.
Qed.

Lemma operations_silent (ctx : TAPContextGot) (path options : value) (s : W) :
  silent (trace (snd (Part000.json host ctx path options (start_world s))))
  /\ silent (trace (snd (Part000.post host ctx path options (start_world s))))
  /\ silent (trace (snd (Part000.put host ctx path options (start_world s))))
  /\ silent (trace (snd (Part000.delete host ctx path options (start_world s))))
  /\ silent (trace (snd (IndexJs.json host ctx path options (start_world s))))
  /\ silent (trace (snd (IndexJs.post host ctx path options (start_world s)))).
Proof.
  repeat split_and.
  - by apply (send_stage_silent (Got _ _)).
  - unfold Part000.post. rewrite withBody_any_options.
    destruct (get_prop options "cache"); [by apply body_path_silent | done].
  - unfold Part000.put. rewrite withBody_any_options.
    destruct (get_prop options "cache"); [by apply body_path_silent | done].
  - by apply (send_stage_silent (Got _ _)).
  - by apply (send_stage_silent (Got _ _)).
  - rewrite post_any_options.
    destruct (get_prop options "cache"); [by apply body_path_silent | done].
Qed.

(** The shape of a success assertion: the operation, a report of what it
    returned, and a report of the error when either throws. *)
Lemma success_assertion_reports (operation : TAPContextGot -> M W value)
    (report : value -> call) (this : TestCase) (message extra : value) (s : W) :
  (forall ctx, silent (trace (snd (operation ctx (start_world s))))) ->
  (forall found, report_of (report found) = Some (message, extra)) ->
  let t := trace (snd (try_catch
                         (ctx <- this_context this ;;
                          found <- operation ctx ;;
                          Run.perform host (report found) ;;;
                          ret tt)
                         (fun error => Run.perform host (Error error message extra) ;;; ret tt)
                         (start_world s))) in
  Forall (fun r => r = (message, extra)) (reports t) /\ reports t <> [].
Proof.
  intros Hop Hrep t. subst t. unfold this_context.
  destruct (context this) as [ctx|]; run_simpl.
  - specialize (Hop ctx). unfold start_world in Hop.
    destruct (operation ctx _) as [[found|e] [t1 s1]]; destruct Hop as [Hop _];
      cbn [snd trace] in Hop; repeat run_step host;
      rewrite !reports_app, Hop; unfold reports;
      cbn [omap list_omap fst report_of app]; rewrite ?Hrep; cbn [app];
      (split; [repeat constructor | discriminate]).
  - unfold start_world. repeat run_step host;
      unfold reports; cbn [omap list_omap fst report_of app];
      (split; [repeat constructor | discriminate]).
Qed.

(** The shape of a failure assertion: the promise of the operation is
    handed to [rejects] with the pattern and the message. *)
Lemma failure_assertion_trace (operation : TAPContextGot -> M W value)
    (wanted : TAPContextGot -> value) (this : TestCase) (ctx : TAPContextGot)
    (message extra : value) (s : W) :
  context this = Some ctx ->
  silent (trace (snd (operation ctx (start_world s)))) ->
  let t := trace (snd ((ctx <- this_context this ;;
                        promise <- settle (operation ctx) ;;
                        Run.perform host (Rejects promise (wanted ctx) message extra) ;;;
                        ret tt) (start_world s))) in
  reports t = [(message, extra)]
  /\ verdicts t = [rejects_verdict (fst (operation ctx (start_world s))) (wanted ctx)].
Proof.
  intros Hctx Hop t. subst t. unfold this_context. rewrite Hctx. run_simpl.
  unfold start_world in *.
  destruct (operation ctx _) as [outcome [t1 s1]]. destruct Hop as [Hr Hv].
  cbn [snd fst trace hstate] in *.
  repeat run_step host; rewrite reports_app, verdicts_app, Hr, Hv; done.
Qed.

Lemma failure_assertion_no_context (operation : TAPContextGot -> M W value)
    (wanted : TAPContextGot -> value) (this : TestCase) (message extra : value) (s : W) :
  context this = None ->
  trace (snd ((ctx <- this_context this ;;
               promise <- settle (operation ctx) ;;
               Run.perform host (Rejects promise (wanted ctx) message extra) ;;;
               ret tt) (start_world s))) = [].
Proof. intros Hctx. unfold this_context. rewrite Hctx. by run_simpl. Qed.

Lemma failure_assertion_reports (operation : TAPContextGot -> M W value)
    (wanted : TAPContextGot -> value) (this : TestCase) (message extra : value) (s : W) :
  (forall ctx, silent (trace (snd (operation ctx (start_world s))))) ->
  let t := trace (snd ((ctx <- this_context this ;;
                        promise <- settle (operation ctx) ;;
                        Run.perform host (Rejects promise (wanted ctx) message extra) ;;;
                        ret tt) (start_world s))) in
  Forall (fun r => r = (message, extra)) (reports t)
  /\ (is_Some (context this) -> reports t <> []).
Proof.
  intros Hop t. subst t. destruct (context this) as [ctx|] eqn:Hctx.
  - destruct (failure_assertion_trace operation wanted this ctx message extra s Hctx (Hop ctx))
      as [-> _].
    split; [repeat constructor | discriminate].
  - rewrite failure_assertion_no_context by done.
    split; [constructor | by intros [? [=]]].
Qed.

Lemma verdict_judges (source flags : string) (outcome : completion value) (t : list entry) :
  verdicts t = [rejects_verdict outcome (VRegExp source flags)] ->
  judges source outcome t.
Proof.
  intros Ht. unfold judges, passes, fails. rewrite Ht. cbn [rejects_verdict].
  set (b := match outcome with
            | Throw (VError _ message) => regexp_test source message
            | _ => false
            end).
  assert (b = true <-> rejects_matching source outcome) as Hb.
  { subst b. unfold rejects_matching. destruct outcome as [v|e].
    - split; [discriminate | by intros (? & ? & [=] & _)].
    - destruct e; try (split; [discriminate | by intros (? & ? & [=] & _)]).
      split; [intros E; by eexists _, _ | by intros (? & ? & [= <- <-] & E)]. }
  rewrite <- Hb. destruct b; split; split; try done; try discriminate.
  all: by intros [=].
Qed.

(** C5. For a test with the context and a key under which the
    classification map [httpError] holds a pattern, each failure assertion
    hands [rejects] the promise of its own operation ([json], [post], [put]
    or [delete] at the given path, the body assertions with [{body}]) and
    that pattern: it passes exactly when the operation rejects with an error
    whose message matches the pattern, and fails when the operation
    resolves or rejects with another error. *)
Theorem failure_assertions_classify (this : TestCase) (ctx : TAPContextGot)
    (path body key message extra : value) (source flags : string) (s : W) :
  context this = Some ctx ->
  get (httpError ctx) (ToString key) = VRegExp source flags ->
  judges source (fst (Part000.json host ctx path VUndefined (start_world s)))
    (trace (snd (Part000.checkGetError host this path key message extra (start_world s))))
  /\ judges source
       (fst (Part000.post host ctx path (VObject {["body" := body]}) (start_world s)))
       (trace (snd (Part000.checkPostError host this path body key message extra
                      (start_world s))))
  /\ judges source
       (fst (Part000.put host ctx path (VObject {["body" := body]}) (start_world s)))
       (trace (snd (Part000.checkPutError host this path body key message extra
                      (start_world s))))
  /\ judges source (fst (Part000.delete host ctx path VUndefined (start_world s)))
       (trace (snd (Part000.checkDeleteError host this path key message extra
                      (start_world s))))
  /\ judges source (fst (IndexJs.json host ctx path VUndefined (start_world s)))
       (trace (snd (IndexJs.checkGetError host this path key message extra (start_world s))))
  /\ judges source
       (fst (IndexJs.post host ctx path (VObject {["body" := body]}) (start_world s)))
       (trace (snd (IndexJs.checkPostError host this path body key message extra
                      (start_world s)))).
Proof.
  intros Hctx Hkey. apply member_pattern in Hkey.
  repeat split_and; apply (verdict_judges source flags); rewrite <- Hkey.
  - apply (failure_assertion_trace
             (fun ctx => Part000.json host ctx path VUndefined)
             (fun ctx => member (httpError ctx) (ToString key))); [done|].
    apply operations_silent.
  - apply (failure_assertion_trace
             (fun ctx => Part000.post host ctx path (VObject {["body" := body]}))
             (fun ctx => member (httpError ctx) (ToString key))); [done|].
    apply operations_silent.
  - apply (failure_assertion_trace
             (fun ctx => Part000.put host ctx path (VObject {["body" := body]}))
             (fun ctx => member (httpError ctx) (ToString key))); [done|].
    apply operations_silent.
  - apply (failure_assertion_trace
             (fun ctx => Part000.delete host ctx path VUndefined)
             (fun ctx => member (httpError ctx) (ToString key))); [done|].
    apply operations_silent.
  - apply (failure_assertion_trace
             (fun ctx => IndexJs.json host ctx path VUndefined)
             (fun ctx => member (httpError ctx) (ToString key))); [done|].
    apply operations_silent.
  - apply (failure_assertion_trace
             (fun ctx => IndexJs.post host ctx path (VObject {["body" := body]}))
             (fun ctx => member (httpError ctx) (ToString key))); [done|].
    apply operations_silent.
Qed.

End Assertions.

Section Messages.
Context {W : Type} (host : call -> W -> completion value * W).

Lemma apiRejects_options (v : value) (k : string) :
  exists x, get_prop (or_else v (VObject ∅)) k = Normal x.
Proof.
  unfold or_else. destruct v; cbn [truthy get_prop]; try by eexists.
  - destruct b; by eexists.
  - destruct (negb _); by eexists.
  - destruct (negb _); by eexists.
Qed.

Lemma apiRejects_reports (this : TestCase) (path options error message extra : value)
    (s : W) :
  let t := trace (snd (Part000.apiRejects host this path options error message extra
                         (start_world s))) in
  let default :=
    match get_prop (or_else options (VObject ∅)) "method" with
    | Normal method => ToString (nullish_or method (VStr "GET"))
    | Throw _ => "GET"
    end in
  Forall (fun r => r = (or_else message (VStr (default ++ " " ++ ToString path)), extra))
         (reports t)
  /\ (is_Some (context this) -> reports t <> []).
Proof.
  intros t default. subst t default. unfold Part000.apiRejects, this_context.
  destruct (apiRejects_options options "method") as [method Hm]. rewrite Hm.
  destruct (context this) as [ctx|]; run_simpl.
  - pose proof (operations_silent host ctx path (or_else options (VObject ∅)) s)
      as [[Hs _] _].
    unfold start_world in *.
    destruct (Part000.json host ctx path _ _) as [outcome [t1 s1]].
    cbn [snd trace hstate] in *.
    repeat run_step host; rewrite reports_app, Hs;
      (split; [repeat constructor | discriminate]).
  - split; [constructor | by intros [? [=]]].
Qed.

Lemma success_reports_with (operation : TAPContextGot -> M W value)
    (report : value -> call) (this : TestCase) (message extra : value) (s : W) :
  (forall ctx, silent (trace (snd (operation ctx (start_world s))))) ->
  (forall found, report_of (report found) = Some (message, extra)) ->
  reports_with this message extra
    (trace (snd (try_catch
                   (ctx <- this_context this ;;
                    found <- operation ctx ;;
                    Run.perform host (report found) ;;;
                    ret tt)
                   (fun error => Run.perform host (Error error message extra) ;;; ret tt)
                   (start_world s)))).
Proof.
  intros Hop Hrep.
  destruct (success_assertion_reports host operation report this message extra s Hop Hrep).
  by split.
Qed.

Lemma part000_reports (this : TestCase) (path a b message extra : value) (s : W) :
  let default (method : string) := or_else message (VStr (method ++ " " ++ ToString path)) in
  reports_with this (default "GET") extra
    (trace (snd (Part000.checkGet host this path a message extra (start_world s))))
  /\ reports_with this (default "GET") extra
       (trace (snd (Part000.matchGet host this path a message extra (start_world s))))
  /\ reports_with this (default "GET") extra
       (trace (snd (Part000.checkGetError host this path a message extra (start_world s))))
  /\ reports_with this (default "POST") extra
       (trace (snd (Part000.checkPost host this path a b message extra (start_world s))))
  /\ reports_with this (default "POST") extra
       (trace (snd (Part000.checkPostError host this path a b message extra (start_world s))))
  /\ reports_with this (default "PUT") extra
       (trace (snd (Part000.checkPut host this path a b message extra (start_world s))))
  /\ reports_with this (default "PUT") extra
       (trace (snd (Part000.checkPutError host this path a b message extra (start_world s))))
  /\ reports_with this (default "DELETE") extra
       (trace (snd (Part000.checkDelete host this path a message extra (start_world s))))
  /\ reports_with this (default "DELETE") extra
       (trace (snd (Part000.checkDeleteError host this path a message extra (start_world s)))).
Proof.
  intros default. subst default. cbv beta.
  repeat split_and.
  - apply (success_reports_with (fun ctx => Part000.json host ctx path VUndefined)
             (fun found => StrictSame found a _ extra)); [|done].
    intros; apply operations_silent.
  - apply (success_reports_with (fun ctx => Part000.json host ctx path VUndefined)
             (fun found => Match found a _ extra)); [|done].
    intros; apply operations_silent.
  - apply (failure_assertion_reports host (fun ctx => Part000.json host ctx path VUndefined)
             (fun ctx => member (httpError ctx) (ToString a))).
    intros; apply operations_silent.
  - apply (success_reports_with
             (fun ctx => Part000.post host ctx path (VObject {["body" := a]}))
             (fun found => StrictSame found b _ extra)); [|done].
    intros; apply operations_silent.
  - apply (failure_assertion_reports host
             (fun ctx => Part000.post host ctx path (VObject {["body" := a]}))
             (fun ctx => member (httpError ctx) (ToString b))).
    intros; apply operations_silent.
  - apply (success_reports_with
             (fun ctx => Part000.put host ctx path (VObject {["body" := a]}))
             (fun found => StrictSame found b _ extra)); [|done].
    intros; apply operations_silent.
  - apply (failure_assertion_reports host
             (fun ctx => Part000.put host ctx path (VObject {["body" := a]}))
             (fun ctx => member (httpError ctx) (ToString b))).
    intros; apply operations_silent.
  - apply (success_reports_with (fun ctx => Part000.delete host ctx path VUndefined)
             (fun found => StrictSame found a _ extra)); [|done].
    intros; apply operations_silent.
  - apply (failure_assertion_reports host (fun ctx => Part000.delete host ctx path VUndefined)
             (fun ctx => member (httpError ctx) (ToString a))).
    intros; apply operations_silent.
Qed.

Lemma index_reports (this : TestCase) (path a b message extra : value) (s : W) :
  reports_with this (or_else message path) extra
    (trace (snd (IndexJs.checkGet host this path a message extra (start_world s))))
  /\ reports_with this (or_else message path) extra
       (trace (snd (IndexJs.matchGet host this path a message extra (start_world s))))
  /\ reports_with this (or_else message (VStr ("GET " ++ ToString path))) extra
       (trace (snd (IndexJs.checkGetError host this path a message extra (start_world s))))
  /\ reports_with this (or_else message path) extra
       (trace (snd (IndexJs.checkPost host this path a b message extra (start_world s))))
  /\ reports_with this (or_else message (VStr ("POST " ++ ToString path))) extra
       (trace (snd (IndexJs.checkPostError host this path a b message extra (start_world s)))).
Proof.
  repeat split_and.
  - apply (success_reports_with (fun ctx => IndexJs.json host ctx path VUndefined)
             (fun found => StrictSame found a _ extra)); [|done].
    intros; apply operations_silent.
  - apply (success_reports_with (fun ctx => IndexJs.json host ctx path VUndefined)
             (fun found => Match found a _ extra)); [|done].
    intros; apply operations_silent.
  - apply (failure_assertion_reports host (fun ctx => IndexJs.json host ctx path VUndefined)
             (fun ctx => member (httpError ctx) (ToString a))).
    intros; apply operations_silent.
  - apply (success_reports_with
             (fun ctx => IndexJs.post host ctx path (VObject {["body" := a]}))
             (fun found => StrictSame found b _ extra)); [|done].
    intros; apply operations_silent.
  - apply (failure_assertion_reports host
             (fun ctx => IndexJs.post host ctx path (VObject {["body" := a]}))
             (fun ctx => member (httpError ctx) (ToString b))).
    intros; apply operations_silent.
Qed.

Lemma Forall_snd (t : list (value * value)) (message extra : value) :
  Forall (fun r => r = (message, extra)) t -> Forall (fun r => snd r = extra) t.
Proof. intros H. eapply Forall_impl; [exact H|]. by intros ? ->. Qed.

Lemma part000_setup_asserts (instance : Integration.Instance) (s : W) :
  exists tap w',
    Part000.setup host empty_tap instance (start_world s) = (Normal tap, w')
    /\ forall entry, entry ∈ asserts tap ->
         entry ∈
           [("apiRejects", 3, fun this a =>
               Part000.apiRejects host this (arg a 0) (arg a 1) (arg a 2) (arg a 3) (arg a 4));
            ("checkGet", 2, fun this a =>
               Part000.checkGet host this (arg a 0) (arg a 1) (arg a 2) (arg a 3));
            ("matchGet", 2, fun this a =>
               Part000.matchGet host this (arg a 0) (arg a 1) (arg a 2) (arg a 3));
            ("checkGetError", 2, fun this a =>
               Part000.checkGetError host this (arg a 0) (arg a 1) (arg a 2) (arg a 3));
            ("checkPost", 3, fun this a =>
               Part000.checkPost host this (arg a 0) (arg a 1) (arg a 2) (arg a 3) (arg a 4));
            ("checkPostError", 3, fun this a =>
               Part000.checkPostError host this (arg a 0) (arg a 1) (arg a 2) (arg a 3)
                                      (arg a 4));
            ("checkPut", 3, fun this a =>
               Part000.checkPut host this (arg a 0) (arg a 1) (arg a 2) (arg a 3) (arg a 4));
            ("checkPutError", 3, fun this a =>
               Part000.checkPutError host this (arg a 0) (arg a 1) (arg a 2) (arg a 3)
                                     (arg a 4));
            ("checkDelete", 2, fun this a =>
               Part000.checkDelete host this (arg a 0) (arg a 1) (arg a 2) (arg a 3));
            ("checkDeleteError", 2, fun this a =>
               Part000.checkDeleteError host this (arg a 0) (arg a 1) (arg a 2) (arg a 3))].
Proof.
  unfold Part000.setup, tap_test, try_catch. cbv zeta.
  match goal with |- context [Part000.setup_test host instance ?t] => set (tap0 := t) end.
  pose proof (setup_test_asserts host instance tap0 (start_world s)) as [H _].
  destruct (Part000.setup_test host instance tap0 (start_world s)) as [[tap|e] w'];
    (eexists _, _; split; [reflexivity|]); rewrite ?H; intros ? Hin; exact Hin.
Qed.

Lemma index_setup_asserts (instance : Integration.Instance) (s : W) :
  exists tap w',
    IndexJs.setup host empty_tap instance (start_world s) = (Normal tap, w')
    /\ asserts tap =
         [("checkGet", 2, fun this a =>
             IndexJs.checkGet host this (arg a 0) (arg a 1) (arg a 2) (arg a 3));
          ("matchGet", 2, fun this a =>
             IndexJs.matchGet host this (arg a 0) (arg a 1) (arg a 2) (arg a 3));
          ("checkGetError", 2, fun this a =>
             IndexJs.checkGetError host this (arg a 0) (arg a 1) (arg a 2) (arg a 3));
          ("checkPost", 3, fun this a =>
             IndexJs.checkPost host this (arg a 0) (arg a 1) (arg a 2) (arg a 3) (arg a 4));
          ("checkPostError", 3, fun this a =>
             IndexJs.checkPostError host this (arg a 0) (arg a 1) (arg a 2) (arg a 3)
                                    (arg a 4))].
Proof.
  unfold IndexJs.setup, tap_test, try_catch. cbv zeta.
  match goal with |- context [IndexJs.setup_test host instance ?t] => set (tap0 := t) end.
  pose proof (setup_test_asserts host instance tap0 (start_world s)) as [_ H].
  destruct (IndexJs.setup_test host instance tap0 (start_world s)) as [[tap|e] w'];
    (eexists _, _; split; [reflexivity|]); rewrite ?H; reflexivity.
Qed.

Ltac assertion_cases Hin :=
  repeat (apply elem_of_cons in Hin; destruct Hin as [Hin|Hin];
          [injection Hin as -> -> ->|]);
  [.. | by apply elem_of_nil in Hin].

Ltac pick H :=
  let H1 := fresh in
  let H2 := fresh in
  first [ exact H
        | destruct H as [H1 H2]; first [ exact H1 | pick H2 ] ].

(** C4, as the code has it.  With the message omitted, every report of
    every assertion that [setup] of part_000 registers carries the message
    [<METHOD> <path>], and so does every report of the failure assertions
    [checkGetError] and [checkPostError] of index.js.  Every report of every
    assertion of both files carries the extra object it was given. *)
Theorem default_message_and_extra :
  default_message_claim (Part000.setup host)
  /\ forall (instance : Integration.Instance) (s : W),
     exists tap w',
       IndexJs.setup host empty_tap instance (start_world s) = (Normal tap, w')
       /\ forall name arity fn,
            (name, arity, fn) ∈ asserts tap ->
            forwards_extra arity fn
            /\ (name ∈ ["checkGetError"; "checkPostError"] -> reports_default name arity fn).
Proof.
  split.
  - intros instance s.
    destruct (part000_setup_asserts instance s) as (tap & w' & Hsetup & Hasserts).
    exists tap, w'. split; [exact Hsetup|].
    intros name arity fn Hin. apply Hasserts in Hin. clear Hasserts Hsetup.
    assertion_cases Hin.
    { unfold reports_default, forwards_extra. split.
      - intros this args s' Hmsg. cbv beta zeta.
        pose proof (apiRejects_reports this (arg args 0) (arg args 1) (arg args 2)
                      (arg args 3) (arg args 4) s') as H.
        rewrite Hmsg in H |- *. exact H.
      - intros this args s'.
        pose proof (apiRejects_reports this (arg args 0) (arg args 1) (arg args 2)
                      (arg args 3) (arg args 4) s') as [H _].
        by eapply Forall_snd. }
    all: unfold reports_default, forwards_extra; split;
      [ intros this args s' Hmsg; cbv beta zeta;
        pose proof (part000_reports this (arg args 0) (arg args 1) VUndefined
                      (arg args 2) (arg args 3) s') as H2;
        pose proof (part000_reports this (arg args 0) (arg args 1) (arg args 2)
                      (arg args 3) (arg args 4) s') as H3;
        cbv zeta in H2, H3; rewrite Hmsg in H2, H3 |- *;
        first [ pick H2 | pick H3 ]
      | intros this args s';
        pose proof (part000_reports this (arg args 0) (arg args 1) VUndefined
                      (arg args 2) (arg args 3) s') as H2;
        pose proof (part000_reports this (arg args 0) (arg args 1) (arg args 2)
                      (arg args 3) (arg args 4) s') as H3;
        cbv zeta in H2, H3; unfold reports_with in H2, H3;
        eapply Forall_snd;
        first [ apply H2 | apply H3 ] ].
  - intros instance s.
    destruct (index_setup_asserts instance s) as (tap & w' & Hsetup & Hasserts).
    exists tap, w'. split; [exact Hsetup|].
    intros name arity fn Hin. rewrite Hasserts in Hin. clear Hasserts Hsetup.
    assertion_cases Hin.
    all: split;
      [ intros this args s';
        pose proof (index_reports this (arg args 0) (arg args 1) VUndefined
                      (arg args 2) (arg args 3) s') as H2;
        pose proof (index_reports this (arg args 0) (arg args 1) (arg args 2)
                      (arg args 3) (arg args 4) s') as H3;
        unfold reports_with in H2, H3;
        eapply Forall_snd;
        first [ apply H2 | apply H3 ]
      | intros Hname;
        try (exfalso;
             repeat (apply elem_of_cons in Hname; destruct Hname as [Hname|Hname];
                     [discriminate Hname|]);
             by apply elem_of_nil in Hname);
        intros this args s' Hmsg; cbv beta zeta;
        pose proof (index_reports this (arg args 0) (arg args 1) VUndefined
                      (arg args 2) (arg args 3) s') as H2;
        pose proof (index_reports this (arg args 0) (arg args 1) (arg args 2)
                      (arg args 3) (arg args 4) s') as H3;
        rewrite Hmsg in H2, H3 |- *;
        first [ pick H2 | pick H3 ] ].
Qed.

End Messages.


(** * More of the code *)

(** ** The transport call of the body-bearing path *)

Section Transport.
Context {W : Type} (host : call -> W -> completion value * W).

Lemma merged_method (this : TAPContextGot) (method : string) (o : obj) :
  merged this method o !! "method" = Some (VStr method).
Proof.
  unfold merged. destruct (truthy _); rewrite ?lookup_delete_ne by discriminate;
    apply lookup_insert_eq.
Qed.

Lemma merged_post_method (this : TAPContextGot) (o : obj) :
  merged_post this o !! "method" = (o ∪ genericGotOptions this) !! "method".
Proof.
  unfold merged_post. destruct (truthy _); rewrite ?lookup_delete_ne by discriminate;
    rewrite !lookup_union, lookup_singleton_ne by discriminate;
    by destruct (o !! "method"), (genericGotOptions this !! "method").
Qed.

(** X1. A call of [_withBody] ([post], [put]) makes at most one call of the
    transport, and none only when it throws.  The call is [got] at
    [baseURL] followed by the path, and its [method] is the one of the
    operation whatever [method] the caller's options name.  [post] of
    index.js calls [got.post] instead and leaves [method] as the caller's
    options over the defaults have it. *)
Theorem body_path_transport_call (this : TAPContextGot) (method : string) (path : value)
    (o : obj) (s : W) :
  one_transport_call (Got (url_of this path))
    (fun request => request !! "method" = Some (VStr method))
    (Part000._withBody host this method path (VObject o) (start_world s))
  /\ one_transport_call (GotPost (url_of this path))
       (fun request => request !! "method" = (o ∪ genericGotOptions this) !! "method")
       (IndexJs.post host this path (VObject o) (start_world s)).
Proof.
  unfold one_transport_call. split.
  - rewrite withBody_stages.
    pose proof (body_path_transport host
                  (fun request : obj => request !! "method" = Some (VStr method))
                  (merged this method o) (Got (url_of this path)) s) as H.
    destruct (body_path host _ _ _) as [r w'].
    destruct H as [(H1 & _ & H2)|(request & H1 & H2 & _)]; try done.
    + apply merged_method.
    + intros. by rewrite lookup_insert_ne.
    + intros. by rewrite lookup_insert_ne.
    + by left.
    + right. by exists request.
  - rewrite post_stages.
    pose proof (body_path_transport host
                  (fun request : obj =>
                     request !! "method" = (o ∪ genericGotOptions this) !! "method")
                  (merged_post this o) (GotPost (url_of this path)) s) as H.
    destruct (body_path host _ _ _) as [r w'].
    destruct H as [(H1 & _ & H2)|(request & H1 & H2 & _)]; try done.
    + apply merged_post_method.
    + intros ? ? E. by rewrite lookup_insert_ne.
    + intros ? ? E. by rewrite lookup_insert_ne.
    + by left.
    + right. by exists request.
Qed.

(** X2. In the body-bearing path the transport is not called exactly when
    a step before it threw: the producer of the body, [buffer()],
    [getHeaders()] or [JSON.stringify].  A body that cannot be produced or
    encoded is never sent. *)
Theorem failed_body_step_sends_nothing (this : TAPContextGot) (method : string)
    (path : value) (o : obj) (s : W) :
  (let t := trace (snd (Part000._withBody host this method path (VObject o)
                          (start_world s))) in
   transport_calls t = [] <-> thrown_body_step t)
  /\ (let t := trace (snd (IndexJs.post host this path (VObject o) (start_world s))) in
      transport_calls t = [] <-> thrown_body_step t).
Proof.
  split; cbv zeta.
  - rewrite withBody_stages.
    pose proof (body_path_transport host (fun _ => True) (merged this method o)
                  (Got (url_of this path)) s) as H.
    destruct (body_path host _ _ _) as [r w'].
    destruct H as [(H1 & H2 & _)|(request & H1 & _ & H2)]; try done.
    cbn [snd]. rewrite H1. split; [discriminate | done].
  - rewrite post_stages.
    pose proof (body_path_transport host (fun _ => True) (merged_post this o)
                  (GotPost (url_of this path)) s) as H.
    destruct (body_path host _ _ _) as [r w'].
    destruct H as [(H1 & H2 & _)|(request & H1 & _ & H2)]; try done.
    cbn [snd]. rewrite H1. split; [discriminate | done].
Qed.

Lemma merged_passes (this : TAPContextGot) (method : string) (o : obj) (k : string) :
  k ∉ ["body"; "headers"; "cache"; "method"] ->
  merged this method o !! k = (o ∪ genericGotOptions this) !! k.
Proof.
  intros Hk. unfold merged.
  assert (k <> "headers" /\ k <> "cache" /\ k <> "method") as (H1 & H2 & H3).
  { repeat split; intros ->; apply Hk; set_solver. }
  destruct (truthy _); rewrite ?lookup_delete_ne by done;
    rewrite lookup_insert_ne by done;
    rewrite !lookup_union, lookup_singleton_ne by done;
    by destruct (o !! k), (genericGotOptions this !! k).
Qed.

Lemma merged_post_passes (this : TAPContextGot) (o : obj) (k : string) :
  k ∉ ["body"; "headers"; "cache"] ->
  merged_post this o !! k = (o ∪ genericGotOptions this) !! k.
Proof.
  intros Hk. unfold merged_post.
  assert (k <> "headers" /\ k <> "cache") as (H1 & H2).
  { repeat split; intros ->; apply Hk; set_solver. }
  destruct (truthy _); rewrite ?lookup_delete_ne by done;
    rewrite !lookup_union, lookup_singleton_ne by done;
    by destruct (o !! k), (genericGotOptions this !! k).
Qed.

(** X3. Every option other than [body], [headers], [cache] and [method]
    reaches the transport of the body-bearing path as the caller's options
    over the default options have it: the caller's value when the caller
    gave one, the default ([timeout], [cookieJar], ...) otherwise.  In
    index.js the same holds of [method] too. *)
Theorem other_options_pass_through (this : TAPContextGot) (method : string) (path : value)
    (o : obj) (k : string) (s : W) :
  (k ∉ ["body"; "headers"; "cache"; "method"] ->
   Forall (fun request : obj => request !! k = (o ∪ genericGotOptions this) !! k)
          (requests (trace (snd (Part000._withBody host this method path (VObject o)
                                   (start_world s))))))
  /\ (k ∉ ["body"; "headers"; "cache"] ->
      Forall (fun request : obj => request !! k = (o ∪ genericGotOptions this) !! k)
             (requests (trace (snd (IndexJs.post host this path (VObject o)
                                      (start_world s)))))).
Proof.
  split; intros Hk.
  - assert (k <> "body" /\ k <> "headers") as (H1 & H2).
    { split; intros ->; apply Hk; set_solver. }
    rewrite withBody_stages.
    pose proof (body_path_requests host
                  (fun request : obj => request !! k = (o ∪ genericGotOptions this) !! k)
                  (Got (url_of this path)) (merged this method o) s) as H.
    destruct (body_path host _ _ _) as [r w']. apply H; try done.
    + by apply merged_passes.
    + intros ? ? E. by rewrite lookup_insert_ne.
    + intros ? ? E. by rewrite lookup_insert_ne.
  - assert (k <> "body" /\ k <> "headers") as (H1 & H2).
    { split; intros ->; apply Hk; set_solver. }
    rewrite post_stages.
    pose proof (body_path_requests host
                  (fun request : obj => request !! k = (o ∪ genericGotOptions this) !! k)
                  (GotPost (url_of this path)) (merged_post this o) s) as H.
    destruct (body_path host _ _ _) as [r w']. apply H; try done.
    + by apply merged_post_passes.
    + intros ? ? E. by rewrite lookup_insert_ne.
    + intros ? ? E. by rewrite lookup_insert_ne.
Qed.

End Transport.

(** ** Missing options, and the names of headers *)

Section Options.
Context {W : Type} (host : call -> W -> completion value * W).

(** X4. With [undefined] or [null] for its options, the body-bearing
    operation throws a [TypeError] before anything is called, while [api],
    [json] and [delete] make their request with the default options alone
    ([delete] with [method: 'DELETE'] added). *)
Theorem missing_options (this : TAPContextGot) (method : string) (path options : value)
    (s : W) :
  nullish options = true ->
  type_error_without_call s (Part000._withBody host this method path options (start_world s))
  /\ type_error_without_call s (IndexJs.post host this path options (start_world s))
  /\ requests (trace (snd (Part000.api host this path options (start_world s))))
     = [genericGotOptions this]
  /\ requests (trace (snd (Part000.json host this path options (start_world s))))
     = [genericGotOptions this]
  /\ requests (trace (snd (Part000.delete host this path options (start_world s))))
     = [<["method" := VStr "DELETE"]> (genericGotOptions this)]
  /\ requests (trace (snd (IndexJs.json host this path options (start_world s))))
     = [genericGotOptions this].
Proof.
  intros Hn.
  assert (own_props options = ∅) as Hown by (by destruct options).
  assert (spread (spread ∅ (VObject (genericGotOptions this))) options
          = genericGotOptions this) as Hget.
  { unfold spread. rewrite Hown. cbn [own_props].
    by rewrite (left_id_L ∅ (∪)), (right_id_L ∅ (∪)). }
  assert (spread (spread ∅ (VObject (genericGotOptions this)))
                 (VObject (<["method" := VStr "DELETE"]> (spread ∅ options)))
          = <["method" := VStr "DELETE"]> (genericGotOptions this)) as Hdel.
  { unfold spread. rewrite Hown. cbn [own_props].
    rewrite !(right_id_L ∅ (∪)). by rewrite <- insert_union_l, (left_id_L ∅ (∪)). }
  repeat split_and.
  - destruct options; try discriminate; by eexists.
  - destruct options; try discriminate; by eexists.
  - unfold Part000.api, start_world. rewrite Hget. by repeat run_step host.
  - unfold Part000.json, Part000.api, start_world. rewrite Hget. by repeat run_step host.
  - unfold Part000.delete, Part000.api, start_world. rewrite Hdel. by repeat run_step host.
  - unfold IndexJs.json, IndexJs.api, start_world. rewrite Hget. by repeat run_step host.
Qed.

Lemma omap_request_outgoing (l : list call) :
  omap request_of (List.filter (fun c => negb (is_parse c)) l) = omap request_of l.
Proof.
  induction l as [|c l IH]; [reflexivity|].
  destruct c; cbn [List.filter is_parse negb omap list_omap request_of]; by rewrite ?IH.
Qed.

Lemma requests_outgoing (t : list entry) : requests t = omap request_of (outgoing t).
Proof.
  unfold outgoing, calls. rewrite omap_request_outgoing. unfold requests.
  induction t as [|e t IH]; [reflexivity|].
  cbn [map omap list_omap]. by rewrite IH.
Qed.

Lemma resolved_body_no_request (b v : value) (s s1 : W) (pre : list entry) :
  resolved_body host b s = Some (v, s1, pre) -> omap request_of (calls pre) = [].
Proof.
  unfold resolved_body. destruct (as_function b) as [f|].
  - destruct (host (Invoke f) s) as [[v'|e] s']; [|discriminate].
    by intros [= <- <- <-].
  - by intros [= <- <- <-].
Qed.

Lemma body_path_json_headers (m : obj) (mk : obj -> call) (s s1 s2 : W) (v encoded : value)
    (pre : list entry) :
  (forall o, is_parse (mk o) = false) ->
  (forall o, request_of (mk o) = Some o) ->
  resolved_body host (get m "body") s = Some (v, s1, pre) ->
  is_multipart v = false ->
  not_strictly_false (get m "json") = true ->
  host (JSONStringify v) s1 = (Normal encoded, s2) ->
  json_headers (get m "headers") (trace (snd (body_path host m mk (start_world s)))).
Proof.
  intros Hmk Hreq Hres Hmp Hjson Henc.
  pose proof (body_path_json host m mk s s1 s2 v encoded pre Hmk Hres Hmp Hjson Henc) as H.
  unfold json_headers. rewrite requests_outgoing, H, omap_app.
  rewrite (resolved_body_no_request _ _ _ _ _ Hres).
  cbn [app omap list_omap request_of]. rewrite Hreq.
  eexists _, _. split; [reflexivity|]. split; [apply lookup_insert_eq|]. split.
  - rewrite lookup_union, lookup_singleton_eq.
    by destruct (own_props (get m "headers") !! "Content-Type").
  - intros k Hk. rewrite lookup_union, lookup_singleton_ne by done.
    by destruct (own_props (get m "headers") !! k).
Qed.

(** X5. When the body is encoded as JSON, the headers of the request are
    the caller's headers, each under its own name, and [Content-Type:
    application/json] unless the caller has a header of exactly the name
    [Content-Type]: names are compared as they are written, so a
    [content-type] of the caller is sent along with the added
    [Content-Type]. *)
Theorem content_type_is_added_by_exact_name (this : TAPContextGot) (method : string)
    (path : value) (o : obj) (hv v encoded : value) (s s1 s2 : W) (pre : list entry) :
  o !! "headers" = Some hv ->
  (resolved_body host (get (merged this method o) "body") s = Some (v, s1, pre) ->
   is_multipart v = false ->
   not_strictly_false (get (merged this method o) "json") = true ->
   host (JSONStringify v) s1 = (Normal encoded, s2) ->
   json_headers hv
     (trace (snd (Part000._withBody host this method path (VObject o) (start_world s)))))
  /\ (resolved_body host (get (merged_post this o) "body") s = Some (v, s1, pre) ->
      is_multipart v = false ->
      not_strictly_false (get (merged_post this o) "json") = true ->
      host (JSONStringify v) s1 = (Normal encoded, s2) ->
      json_headers hv
        (trace (snd (IndexJs.post host this path (VObject o) (start_world s))))).
Proof.
  intros Hhv.
  destruct (merged_get this method o "headers") as [E1 E2]; [done..|].
  pose proof (E2 _ Hhv) as E3.
  split; intros Hres Hmp Hjson Henc.
  - rewrite withBody_stages. rewrite <- E3, <- E1.
    by apply (body_path_json_headers _ _ s s1 s2 v encoded pre).
  - rewrite post_stages. rewrite <- E3.
    by apply (body_path_json_headers _ _ s s1 s2 v encoded pre).
Qed.

End Options.

(** ** The cookie jar and the constructor *)

Section Context_.
Context {W : Type} (host : call -> W -> completion value * W).

Lemma default_option_lookup (this : TAPContextGot) (options : value) (k : string) :
  own_props options !! k = None ->
  spread (spread ∅ (VObject (genericGotOptions this))) options !! k
  = genericGotOptions this !! k.
Proof.
  intros H. unfold spread. cbn [own_props].
  rewrite (lookup_union_r _ _ _ H). by rewrite (right_id_L ∅ (∪)).
Qed.

Lemma get_path_carries_jar (this : TAPContextGot) (jar path options : value) (s : W) :
  genericGotOptions this !! "cookieJar" = Some jar ->
  own_props options !! "cookieJar" = None ->
  carries_jar jar (trace (snd (Part000.json host this path options (start_world s))))
  /\ carries_jar jar (trace (snd (Part000.delete host this path options (start_world s))))
  /\ carries_jar jar (trace (snd (IndexJs.json host this path options (start_world s)))).
Proof.
  intros Hjar Hopt.
  assert (own_props (VObject (<["method" := VStr "DELETE"]> (spread ∅ options)))
            !! "cookieJar" = None) as Hdel.
  { cbn [own_props]. rewrite lookup_insert_ne by discriminate.
    unfold spread. by rewrite (right_id_L ∅ (∪)). }
  unfold carries_jar, Part000.json, Part000.delete, IndexJs.json, Part000.api, IndexJs.api,
    start_world.
  repeat split; repeat run_step host;
    unfold requests; cbn [omap list_omap fst request_of];
    repeat constructor; by rewrite default_option_lookup.
Qed.

Lemma body_path_carries_jar (this : TAPContextGot) (jar : value) (method : string)
    (path : value) (o : obj) (s : W) :
  genericGotOptions this !! "cookieJar" = Some jar ->
  o !! "cookieJar" = None ->
  carries_jar jar
    (trace (snd (Part000._withBody host this method path (VObject o) (start_world s))))
  /\ carries_jar jar (trace (snd (IndexJs.post host this path (VObject o) (start_world s)))).
Proof.
  intros Hjar Ho. unfold carries_jar.
  assert ((o ∪ genericGotOptions this) !! "cookieJar" = Some jar) as E.
  { by rewrite (lookup_union_r _ _ _ Ho). }
  split.
  - rewrite withBody_stages.
    pose proof (body_path_requests host
                  (fun request : obj => request !! "cookieJar" = Some jar)
                  (Got (url_of this path)) (merged this method o) s) as H.
    destruct (body_path host _ _ _) as [r w']. apply H; try done.
    + rewrite merged_passes; [done|].
      rewrite !not_elem_of_cons. repeat split; try discriminate. apply not_elem_of_nil.
    + intros ? ? E'. by rewrite lookup_insert_ne.
    + intros ? ? E'. by rewrite lookup_insert_ne.
  - rewrite post_stages.
    pose proof (body_path_requests host
                  (fun request : obj => request !! "cookieJar" = Some jar)
                  (GotPost (url_of this path)) (merged_post this o) s) as H.
    destruct (body_path host _ _ _) as [r w']. apply H; try done.
    + rewrite merged_post_passes; [done|].
      rewrite !not_elem_of_cons. repeat split; try discriminate. apply not_elem_of_nil.
    + intros ? ? E'. by rewrite lookup_insert_ne.
    + intros ? ? E'. by rewrite lookup_insert_ne.
Qed.

(** X6. [getCookieString] asks the cookie jar of the default options, once,
    for the cookies of the given url, and ends as the jar answers.  It is the
    jar of the requests: every request of [json], [delete], [post] and [put]
    whose options name no [cookieJar] carries that very jar.  When the default
    options have no jar with such a method, [getCookieString] throws a
    [TypeError] and calls nothing. *)
Theorem cookie_jar_is_shared (this : TAPContextGot) (method : string)
    (jar url path options : value) (o : obj) (s : W) :
  (genericGotOptions this !! "cookieJar" = Some jar ->
   has_method jar "getCookieString" = true ->
   asks_jar host jar url s (Part000.getCookieString host this url (start_world s))
   /\ asks_jar host jar url s (IndexJs.getCookieString host this url (start_world s))
   /\ (own_props options !! "cookieJar" = None ->
       carries_jar jar (trace (snd (Part000.json host this path options (start_world s))))
       /\ carries_jar jar
            (trace (snd (Part000.delete host this path options (start_world s))))
       /\ carries_jar jar
            (trace (snd (IndexJs.json host this path options (start_world s)))))
   /\ (o !! "cookieJar" = None ->
       carries_jar jar
         (trace (snd (Part000._withBody host this method path (VObject o) (start_world s))))
       /\ carries_jar jar
            (trace (snd (IndexJs.post host this path (VObject o) (start_world s))))))
  /\ (has_method (get (genericGotOptions this) "cookieJar") "getCookieString" = false ->
      type_error_without_call s (Part000.getCookieString host this url (start_world s))
      /\ type_error_without_call s (IndexJs.getCookieString host this url (start_world s))).
Proof.
  split.
  - intros Hjar Hm.
    assert (get (genericGotOptions this) "cookieJar" = jar) as Hget
        by (unfold get; by rewrite Hjar).
    unfold asks_jar, Part000.getCookieString, IndexJs.getCookieString, start_world.
    cbn [get_prop own_props]. run_simpl. rewrite Hget, Hm.
    repeat split_and.
    + destruct jar; try discriminate Hm; run_simpl;
        by destruct (host (GetCookieString _ url) s) as [[?|?] ?].
    + destruct jar; try discriminate Hm; run_simpl;
        by destruct (host (GetCookieString _ url) s) as [[?|?] ?].
    + by apply get_path_carries_jar.
    + by apply body_path_carries_jar.
  - intros Hm.
    unfold type_error_without_call, Part000.getCookieString, IndexJs.getCookieString,
      start_world.
    cbn [get_prop own_props]. run_simpl. rewrite Hm.
    split; destruct (get (genericGotOptions this) "cookieJar") as [| | | | | | | | | |];
      try (by eexists);
      match goal with
      | |- context [get_prop ?v ?k] => destruct (get_prop v k) as [[| | | | | | | | | |]|]
      end; by eexists.
Qed.



End Context_.

(** ** A setup that does not get through *)

Section FailedSetup.
Context {W : Type} (host : call -> W -> completion value * W).






End FailedSetup.

(** ** What the assertions do with the outcome *)

Section Outcomes.
Context {W : Type} (host : call -> W -> completion value * W).

Lemma success_assertion_run (operation : TAPContextGot -> M W value)
    (report : value -> call) (this : TestCase) (ctx : TAPContextGot)
    (message extra : value) (s : W) :
  context this = Some ctx ->
  success_run host report message extra (operation ctx (start_world s))
    (try_catch
       (ctx <- this_context this ;;
        found <- operation ctx ;;
        Run.perform host (report found) ;;;
        ret tt)
       (fun error => Run.perform host (Error error message extra) ;;; ret tt)
       (start_world s)).
Proof.
  intros Hctx. unfold success_run, this_context. rewrite Hctx. run_simpl.
  destruct (operation ctx (start_world s)) as [[found|e] [t1 s1]]; cbn [hstate trace].
  - destruct (host (report found) s1) as [[u|e] s2]; cbn [hstate trace].
    + by rewrite calls_app.
    + destruct (host (Error e message extra) s2) as [[u|e'] s3]; cbn [fst trace reported];
        by rewrite !calls_app, <- app_assoc.
  - destruct (host (Error e message extra) s1) as [[u|e'] s2]; cbn [fst trace reported];
      by rewrite calls_app.
Qed.

(** X9. With the context attached, a success assertion hands the framework
    what its operation returned, together with the expectation: [checkGet],
    [checkPost], [checkPut] and [checkDelete] through [strictSame],
    [matchGet] through [match].  When the operation throws, the assertion
    does not throw: it hands what was thrown to [t.error], and nothing to
    [strictSame] or [match]. *)
Theorem success_assertions_report_outcome (this : TestCase) (ctx : TAPContextGot)
    (path body expected message extra : value) (s : W) :
  context this = Some ctx ->
  let named (method : string) := or_else message (VStr (method ++ " " ++ ToString path)) in
  let strict (m : value) := fun found => StrictSame found expected m extra in
  success_run host (strict (named "GET")) (named "GET") extra
    (Part000.json host ctx path VUndefined (start_world s))
    (Part000.checkGet host this path expected message extra (start_world s))
  /\ success_run host (fun found => Match found expected (named "GET") extra)
       (named "GET") extra
       (Part000.json host ctx path VUndefined (start_world s))
       (Part000.matchGet host this path expected message extra (start_world s))
  /\ success_run host (strict (named "POST")) (named "POST") extra
       (Part000.post host ctx path (VObject {["body" := body]}) (start_world s))
       (Part000.checkPost host this path body expected message extra (start_world s))
  /\ success_run host (strict (named "PUT")) (named "PUT") extra
       (Part000.put host ctx path (VObject {["body" := body]}) (start_world s))
       (Part000.checkPut host this path body expected message extra (start_world s))
  /\ success_run host (strict (named "DELETE")) (named "DELETE") extra
       (Part000.delete host ctx path VUndefined (start_world s))
       (Part000.checkDelete host this path expected message extra (start_world s))
  /\ success_run host (strict (or_else message path)) (or_else message path) extra
       (IndexJs.json host ctx path VUndefined (start_world s))
       (IndexJs.checkGet host this path expected message extra (start_world s))
  /\ success_run host (fun found => Match found expected (or_else message path) extra)
       (or_else message path) extra
       (IndexJs.json host ctx path VUndefined (start_world s))
       (IndexJs.matchGet host this path expected message extra (start_world s))
  /\ success_run host (strict (or_else message path)) (or_else message path) extra
       (IndexJs.post host ctx path (VObject {["body" := body]}) (start_world s))
       (IndexJs.checkPost host this path body expected message extra (start_world s)).
Proof.
  intros Hctx named strict. subst named strict. cbv beta.
  repeat split_and.
  - by apply (success_assertion_run (fun ctx => Part000.json host ctx path VUndefined)).
  - by apply (success_assertion_run (fun ctx => Part000.json host ctx path VUndefined)).
  - by apply (success_assertion_run
                (fun ctx => Part000.post host ctx path (VObject {["body" := body]}))).
  - by apply (success_assertion_run
                (fun ctx => Part000.put host ctx path (VObject {["body" := body]}))).
  - by apply (success_assertion_run (fun ctx => Part000.delete host ctx path VUndefined)).
  - by apply (success_assertion_run (fun ctx => IndexJs.json host ctx path VUndefined)).
  - by apply (success_assertion_run (fun ctx => IndexJs.json host ctx path VUndefined)).
  - by apply (success_assertion_run
                (fun ctx => IndexJs.post host ctx path (VObject {["body" := body]}))).
Qed.

Lemma success_assertion_no_context (operation : TAPContextGot -> M W value)
    (report : value -> call) (this : TestCase) (message extra : value) (s : W) :
  context this = None ->
  reports_type_error host message extra s
    (try_catch
       (ctx <- this_context this ;;
        found <- operation ctx ;;
        Run.perform host (report found) ;;;
        ret tt)
       (fun error => Run.perform host (Error error message extra) ;;; ret tt)
       (start_world s)).
Proof.
  intros Hctx. unfold reports_type_error, this_context, start_world. rewrite Hctx. run_simpl.
  exists "this.context method is not a function". cbv zeta.
  destruct (host (Error _ message extra) s) as [[u|e] s1]; by cbn.
Qed.

Lemma failure_assertion_without_context (operation : TAPContextGot -> M W value)
    (wanted : TAPContextGot -> value) (this : TestCase) (message extra : value) (s : W) :
  context this = None ->
  type_error_without_call s
    ((ctx <- this_context this ;;
      promise <- settle (operation ctx) ;;
      Run.perform host (Rejects promise (wanted ctx) message extra) ;;;
      ret tt) (start_world s)).
Proof.
  intros Hctx. unfold type_error_without_call, this_context. rewrite Hctx. run_simpl.
  by eexists.
Qed.

(** X10. On a test to which no context was attached, an assertion reaches
    neither the transport nor the instance.  A success assertion catches the
    [TypeError] and hands it to [t.error], under its usual message; a failure
    assertion and [apiRejects] throw it and report nothing. *)
Theorem assertions_without_context (this : TestCase)
    (path body expected key options message extra : value) (s : W) :
  context this = None ->
  let named (method : string) := or_else message (VStr (method ++ " " ++ ToString path)) in
  (reports_type_error host (named "GET") extra s
     (Part000.checkGet host this path expected message extra (start_world s))
   /\ reports_type_error host (named "GET") extra s
        (Part000.matchGet host this path expected message extra (start_world s))
   /\ reports_type_error host (named "POST") extra s
        (Part000.checkPost host this path body expected message extra (start_world s))
   /\ reports_type_error host (named "PUT") extra s
        (Part000.checkPut host this path body expected message extra (start_world s))
   /\ reports_type_error host (named "DELETE") extra s
        (Part000.checkDelete host this path expected message extra (start_world s))
   /\ reports_type_error host (or_else message path) extra s
        (IndexJs.checkGet host this path expected message extra (start_world s))
   /\ reports_type_error host (or_else message path) extra s
        (IndexJs.matchGet host this path expected message extra (start_world s))
   /\ reports_type_error host (or_else message path) extra s
        (IndexJs.checkPost host this path body expected message extra (start_world s)))
  /\ (type_error_without_call s
        (Part000.apiRejects host this path options key message extra (start_world s))
      /\ type_error_without_call s
           (Part000.checkGetError host this path key message extra (start_world s))
      /\ type_error_without_call s
           (Part000.checkPostError host this path body key message extra (start_world s))
      /\ type_error_without_call s
           (Part000.checkPutError host this path body key message extra (start_world s))
      /\ type_error_without_call s
           (Part000.checkDeleteError host this path key message extra (start_world s))
      /\ type_error_without_call s
           (IndexJs.checkGetError host this path key message extra (start_world s))
      /\ type_error_without_call s
           (IndexJs.checkPostError host this path body key message extra (start_world s))).
Proof.
  intros Hctx named. subst named. cbv beta. split.
  - repeat split_and.
    + by apply (success_assertion_no_context
                  (fun ctx => Part000.json host ctx path VUndefined)
                  (fun found => StrictSame found expected _ extra)).
    + by apply (success_assertion_no_context
                  (fun ctx => Part000.json host ctx path VUndefined)
                  (fun found => Match found expected _ extra)).
    + by apply (success_assertion_no_context
                  (fun ctx => Part000.post host ctx path (VObject {["body" := body]}))
                  (fun found => StrictSame found expected _ extra)).
    + by apply (success_assertion_no_context
                  (fun ctx => Part000.put host ctx path (VObject {["body" := body]}))
                  (fun found => StrictSame found expected _ extra)).
    + by apply (success_assertion_no_context
                  (fun ctx => Part000.delete host ctx path VUndefined)
                  (fun found => StrictSame found expected _ extra)).
    + by apply (success_assertion_no_context
                  (fun ctx => IndexJs.json host ctx path VUndefined)
                  (fun found => StrictSame found expected _ extra)).
    + by apply (success_assertion_no_context
                  (fun ctx => IndexJs.json host ctx path VUndefined)
                  (fun found => Match found expected _ extra)).
    + by apply (success_assertion_no_context
                  (fun ctx => IndexJs.post host ctx path (VObject {["body" := body]}))
                  (fun found => StrictSame found expected _ extra)).
  - repeat split_and.
    + unfold type_error_without_call, Part000.apiRejects, this_context. rewrite Hctx.
      run_simpl. by eexists.
    + by apply (failure_assertion_without_context
                  (fun ctx => Part000.json host ctx path VUndefined)
                  (fun ctx => member (httpError ctx) (ToString key))).
    + by apply (failure_assertion_without_context
                  (fun ctx => Part000.post host ctx path (VObject {["body" := body]}))
                  (fun ctx => member (httpError ctx) (ToString key))).
    + by apply (failure_assertion_without_context
                  (fun ctx => Part000.put host ctx path (VObject {["body" := body]}))
                  (fun ctx => member (httpError ctx) (ToString key))).
    + by apply (failure_assertion_without_context
                  (fun ctx => Part000.delete host ctx path VUndefined)
                  (fun ctx => member (httpError ctx) (ToString key))).
    + by apply (failure_assertion_without_context
                  (fun ctx => IndexJs.json host ctx path VUndefined)
                  (fun ctx => member (httpError ctx) (ToString key))).
    + by apply (failure_assertion_without_context
                  (fun ctx => IndexJs.post host ctx path (VObject {["body" := body]}))
                  (fun ctx => member (httpError ctx) (ToString key))).
Qed.

End Outcomes.

(** ** [apiRejects], and keys without a pattern *)

Section Keys.
Context {W : Type} (host : call -> W -> completion value * W).

Lemma expectations_app (t1 t2 : list entry) :
  expectations (t1 ++ t2) = (expectations t1 ++ expectations t2)%list.
Proof. apply omap_app. Qed.

Lemma requests_app (t1 t2 : list entry) :
  requests (t1 ++ t2) = (requests t1 ++ requests t2)%list.
Proof. apply omap_app. Qed.

Lemma silent_expectations (t : list entry) : silent t -> expectations t = [].
Proof.
  intros [_ Hv]. induction t as [|[c r] t IH]; [reflexivity|].
  unfold verdicts, expectations in *. cbn [omap list_omap fst] in *.
  destruct c; cbn [verdict_of expectation_of] in *; try (by apply IH); discriminate.
Qed.

Lemma json_request (ctx : TAPContextGot) (path options : value) (s : W) :
  requests (trace (snd (Part000.json host ctx path options (start_world s))))
  = [own_props options ∪ genericGotOptions ctx].
Proof.
  unfold Part000.json, Part000.api, start_world, spread. cbn [own_props].
  rewrite (right_id_L ∅ (∪)). by repeat run_step host.
Qed.

Lemma apiRejects_trace (this : TestCase) (ctx : TAPContextGot)
    (path options key message extra : value) (s : W) :
  context this = Some ctx ->
  let given := or_else options (VObject ∅) in
  let '(outcome, w1) := Part000.json host ctx path given (start_world s) in
  exists named answer,
    trace (snd (Part000.apiRejects host this path options key message extra (start_world s)))
    = (trace w1
       ++ [(Rejects outcome (member (httpError ctx) (ToString key)) named extra, answer)])%list.
Proof.
  intros Hctx given. subst given. unfold Part000.apiRejects, this_context. rewrite Hctx.
  destruct (apiRejects_options options "method") as [method Hm]. rewrite Hm.
  run_simpl.
  destruct (Part000.json host ctx path _ (start_world s)) as [outcome [t1 s1]].
  cbn [trace hstate].
  destruct (host (Rejects outcome _ _ extra) s1) as [[u|e] s2]; by eexists _, _.
Qed.

(** X11. With the context attached and a key that has a pattern,
    [apiRejects] judges like the failure assertions: it passes exactly when
    [json] at the path, with the options it was given, rejects with an error
    whose message matches.  Its one request carries these options over the
    default options, so a [method] among them is the method of the request;
    when the options are omitted or falsy the request carries the default
    options alone. *)
Theorem apiRejects_classifies (this : TestCase) (ctx : TAPContextGot)
    (path options key message extra : value) (source flags : string) (s : W) :
  context this = Some ctx ->
  get (httpError ctx) (ToString key) = VRegExp source flags ->
  let given := or_else options (VObject ∅) in
  let t := trace (snd (Part000.apiRejects host this path options key message extra
                         (start_world s))) in
  judges source (fst (Part000.json host ctx path given (start_world s))) t
  /\ requests t = [own_props given ∪ genericGotOptions ctx]
  /\ (truthy options = false -> requests t = [genericGotOptions ctx]).
Proof.
  intros Hctx Hkey given t. subst t. apply member_pattern in Hkey.
  pose proof (apiRejects_trace this ctx path options key message extra s Hctx) as H.
  pose proof (operations_silent host ctx path given s) as [[Hr Hv] _].
  pose proof (json_request ctx path given s) as Hq.
  cbv zeta in H. fold given in H.
  destruct (Part000.json host ctx path given (start_world s)) as [outcome w1].
  destruct H as (named & answer & ->). cbn [fst snd] in *.
  assert (requests (trace w1 ++ [(Rejects outcome (member (httpError ctx) (ToString key))
                                          named extra, answer)])
          = [own_props given ∪ genericGotOptions ctx]) as Hreq.
  { by rewrite requests_app, Hq. }
  split; [|split].
  - apply (verdict_judges source flags). rewrite verdicts_app, Hv, Hkey. reflexivity.
  - exact Hreq.
  - intros Hf. rewrite Hreq. subst given. unfold or_else. rewrite Hf. cbn [own_props].
    by rewrite (left_id_L ∅ (∪)).
Qed.

Lemma failure_assertion_expects (operation : TAPContextGot -> M W value)
    (wanted : TAPContextGot -> value) (this : TestCase) (ctx : TAPContextGot)
    (message extra : value) (s : W) :
  context this = Some ctx ->
  silent (trace (snd (operation ctx (start_world s)))) ->
  expects (wanted ctx)
    (trace (snd ((ctx <- this_context this ;;
                  promise <- settle (operation ctx) ;;
                  Run.perform host (Rejects promise (wanted ctx) message extra) ;;;
                  ret tt) (start_world s)))).
Proof.
  intros Hctx Hop. apply silent_expectations in Hop.
  unfold expects, this_context. rewrite Hctx. run_simpl.
  destruct (operation ctx (start_world s)) as [outcome [t1 s1]].
  cbn [snd trace hstate] in *.
  repeat run_step host; by rewrite expectations_app, Hop.
Qed.

Lemma registered_pattern_lookup (key : string) :
  member httpError_init key = registered_pattern key.
Proof.
  unfold registered_pattern.
  destruct (decide (key = "400")) as [->|H1]; [reflexivity|].
  destruct (decide (key = "404")) as [->|H2]; [reflexivity|].
  destruct (decide (key = "405")) as [->|H3]; [reflexivity|].
  rewrite bool_decide_eq_false_2.
  - unfold member, httpError_init. by rewrite !lookup_insert_ne, lookup_empty.
  - rewrite !elem_of_cons, elem_of_nil. tauto.
Qed.

Lemma object_prototype_other (key : string) :
  key ∉ "__proto__" :: object_methods -> object_prototype key = VUndefined.
Proof.
  intros Hkey. apply not_elem_of_cons in Hkey as [Hproto Hmethod].
  unfold object_prototype.
  destruct (String.eqb_spec key "constructor") as [->|_].
  - exfalso. apply Hmethod. apply list_elem_of_here.
  - destruct (String.eqb_spec key "__proto__") as [->|_]; [done|].
    by rewrite bool_decide_eq_false_2.
Qed.

(** X12. On a context with the classification map of the constructor, a
    failure assertion hands [rejects] what the map answers under the key: the
    pattern [/Response code N/u] for the keys 400, 404 and 405, given as a
    number or as a string, and for any other key what the map inherits from
    [Object.prototype], a function for a key such as [constructor] or
    [toString].  For a key that is neither one of the three nor the name of
    an inherited member this is [undefined]: an unregistered status code
    leaves the assertion without a pattern to match the error against. *)
Theorem pattern_is_looked_up_by_key (this : TestCase) (ctx : TAPContextGot)
    (path body options key message extra : value) (s : W) :
  context this = Some ctx ->
  httpError ctx = httpError_init ->
  let wanted := registered_pattern (ToString key) in
  expects wanted
    (trace (snd (Part000.checkGetError host this path key message extra (start_world s))))
  /\ expects wanted
       (trace (snd (Part000.checkPostError host this path body key message extra
                      (start_world s))))
  /\ expects wanted
       (trace (snd (Part000.checkPutError host this path body key message extra
                      (start_world s))))
  /\ expects wanted
       (trace (snd (Part000.checkDeleteError host this path key message extra
                      (start_world s))))
  /\ expects wanted
       (trace (snd (Part000.apiRejects host this path options key message extra
                      (start_world s))))
  /\ expects wanted
       (trace (snd (IndexJs.checkGetError host this path key message extra (start_world s))))
  /\ expects wanted
       (trace (snd (IndexJs.checkPostError host this path body key message extra
                      (start_world s))))
  /\ (ToString key ∉ ["400"; "404"; "405"] ->
      ToString key ∉ "__proto__" :: object_methods ->
      wanted = VUndefined).
Proof.
  intros Hctx Hinit wanted. subst wanted.
  assert (registered_pattern (ToString key) = member (httpError ctx) (ToString key)) as ->
      by (by rewrite Hinit, registered_pattern_lookup).
  repeat split_and.
  - apply (failure_assertion_expects (fun ctx => Part000.json host ctx path VUndefined)
             (fun ctx => member (httpError ctx) (ToString key))); [done|].
    apply operations_silent.
  - apply (failure_assertion_expects
             (fun ctx => Part000.post host ctx path (VObject {["body" := body]}))
             (fun ctx => member (httpError ctx) (ToString key))); [done|].
    apply operations_silent.
  - apply (failure_assertion_expects
             (fun ctx => Part000.put host ctx path (VObject {["body" := body]}))
             (fun ctx => member (httpError ctx) (ToString key))); [done|].
    apply operations_silent.
  - apply (failure_assertion_expects (fun ctx => Part000.delete host ctx path VUndefined)
             (fun ctx => member (httpError ctx) (ToString key))); [done|].
    apply operations_silent.
  - pose proof (apiRejects_trace this ctx path options key message extra s Hctx) as H.
    pose proof (operations_silent host ctx path (or_else options (VObject ∅)) s) as [Hs _].
    cbv zeta in H.
    destruct (Part000.json host ctx path _ (start_world s)) as [outcome w1].
    destruct H as (named & answer & ->). apply silent_expectations in Hs.
    unfold expects. cbn [snd] in Hs. by rewrite expectations_app, Hs.
  - apply (failure_assertion_expects (fun ctx => IndexJs.json host ctx path VUndefined)
             (fun ctx => member (httpError ctx) (ToString key))); [done|].
    apply operations_silent.
  - apply (failure_assertion_expects
             (fun ctx => IndexJs.post host ctx path (VObject {["body" := body]}))
             (fun ctx => member (httpError ctx) (ToString key))); [done|].
    apply operations_silent.
  - intros Hcode Hname. rewrite Hinit, registered_pattern_lookup.
    unfold registered_pattern. rewrite bool_decide_eq_false_2 by done.
    by apply object_prototype_other.
Qed.

End Keys.

(** ** The path helpers *)

Section PathHelpers.
Context {W : Type} (host : Files.call -> W -> completion value * W).

Lemma resolved_read_run (this : TAPContextGot) (name : value) (options : list value)
    (read : value -> list value -> Files.call) (s : W) :
  has_method (defaultInstance this) "runPath" = true ->
  Files.resolved_read host (defaultInstance this) name options read s
    (match Files.runPath host this [name] s with
     | (Normal path, t, s1) =>
         let '(r, s2) := host (read path options) s1 in
         (r, (t ++ [read path options])%list, s2)
     | (Throw e, t, s1) => (Throw e, t, s1)
     end).
Proof.
  intros Hm. unfold Files.resolved_read, Files.runPath. rewrite Hm.
  destruct (host (Files.RunPath _ [name]) s) as [[path|e] s1]; [|reflexivity].
  by destruct (host (read path options) s1) as [r s2].
Qed.

(** X13. On a context whose default instance has a [runPath], [runPath]
    hands its arguments to it and ends as it does.  [readdir] and [readFile]
    first ask it for the path of the name alone, never handing it the
    options; when it answers a path they call the file system next, with
    that path and the options as given, make no other call, and end as the
    file system does; when it throws they end with what it threw and the
    file system is not reached.  On a context whose default instance has no
    [runPath] (as one built by index.js, or from an instance without a
    default one), the three helpers throw a [TypeError] and make no call. *)
Theorem path_helpers_resolve_first (this : TAPContextGot) (name : value)
    (options args : list value) (s : W) :
  (has_method (defaultInstance this) "runPath" = true ->
   Files.runPath host this args s
   = (fst (host (Files.RunPath (defaultInstance this) args) s),
      [Files.RunPath (defaultInstance this) args],
      snd (host (Files.RunPath (defaultInstance this) args) s))
   /\ Files.resolved_read host (defaultInstance this) name options Files.Readdir s
        (Files.readdir host this name options s)
   /\ Files.resolved_read host (defaultInstance this) name options Files.ReadFile s
        (Files.readFile host this name options s))
  /\ (has_method (defaultInstance this) "runPath" = false ->
      forall helper,
        helper ∈ [Files.runPath host this args;
                  Files.readdir host this name options;
                  Files.readFile host this name options] ->
        exists message, helper s = (Throw (VError "TypeError" message), [], s)).
Proof.
  split.
  - intros Hm. split; [|split].
    + unfold Files.runPath. rewrite Hm. by destruct (host _ s).
    + by apply (resolved_read_run this name options Files.Readdir).
    + by apply (resolved_read_run this name options Files.ReadFile).
  - intros Hno helper Hin.
    rewrite !elem_of_cons, elem_of_nil in Hin.
    destruct Hin as [->|[->|[->|[]]]];
      unfold Files.readdir, Files.readFile, Files.runPath; rewrite Hno; by eexists.
Qed.

End PathHelpers.
(** * The model on the demo host *)

(** A form produced by [makeForm], posted with a header of the caller and
    [json: true]. *)
Lemma multipart_body_bypasses_json_witness :
  multipart_run "form" Demo.form_resolution (VHost "Buffer" 1) Demo.form_headers
    Demo.form_options (merged Demo.this "POST" Demo.form_options)
    (Got (url_of Demo.this Demo.path))
    (trace (snd (Part000._withBody Demo.host Demo.this "POST" Demo.path
                   (VObject Demo.form_options) (start_world 0))))
  /\ multipart_run "form" Demo.form_resolution (VHost "Buffer" 1) Demo.form_headers
       Demo.form_options (merged_post Demo.this Demo.form_options)
       (GotPost (url_of Demo.this Demo.path))
       (trace (snd (IndexJs.post Demo.host Demo.this Demo.path
                      (VObject Demo.form_options) (start_world 0)))).
Proof.
  pose proof (multipart_body_bypasses_json Demo.host Demo.this "POST" Demo.path
                Demo.form_options "form" 0 1 2 3 Demo.form_resolution
                (VHost "Buffer" 1) Demo.form_headers) as [H1 H2].
  split; [apply H1 | apply H2]; reflexivity.
Defined.

(** A widget produced by [makeWidget]. *)
Lemma deferred_body_is_invoked_once_witness :
  Demo.deferred_options !! "body" = Some (VFunction "makeWidget")
  /\ deferred_run Demo.host "makeWidget" 0 (merged Demo.this "PUT" Demo.deferred_options)
       (Part000._withBody Demo.host Demo.this "PUT" Demo.path
          (VObject Demo.deferred_options) (start_world 0))
  /\ deferred_run Demo.host "makeWidget" 0 (merged_post Demo.this Demo.deferred_options)
       (IndexJs.post Demo.host Demo.this Demo.path
          (VObject Demo.deferred_options) (start_world 0)).
Proof.
  split; [reflexivity|].
  apply (deferred_body_is_invoked_once Demo.host Demo.this "PUT" Demo.path
           Demo.deferred_options "makeWidget" 0).
  reflexivity.
Defined.

(** A post with [cache: false], on a context whose defaults hold a cache. *)
Lemma falsy_cache_is_removed_witness :
  Demo.uncached_options !! "cache" = Some (VBool false)
  /\ truthy (VBool false) = false
  /\ sends_no_cache (Part000._withBody Demo.host Demo.this "POST" Demo.path
                       (VObject Demo.uncached_options) (start_world 0))
  /\ sends_no_cache (IndexJs.post Demo.host Demo.this Demo.path
                       (VObject Demo.uncached_options) (start_world 0)).
Proof.
  split; [reflexivity|]. split; [reflexivity|].
  apply (falsy_cache_is_removed Demo.host Demo.this "POST" Demo.path
           Demo.uncached_options (VBool false) 0); reflexivity.
Defined.

(** A literal widget, encoded, and a raw text with [json: false]. *)
Lemma json_option_selects_encoding_witness :
  encoded_run Demo.widget (VStr "{id:1,name:bolt}") []
    (merged Demo.this "POST" Demo.widget_options) (Got (url_of Demo.this Demo.path))
    (trace (snd (Part000._withBody Demo.host Demo.this "POST" Demo.path
                   (VObject Demo.widget_options) (start_world 0))))
  /\ verbatim_run (VStr "raw") [] (merged_post Demo.this Demo.verbatim_options)
       (GotPost (url_of Demo.this Demo.path))
       (trace (snd (IndexJs.post Demo.host Demo.this Demo.path
                      (VObject Demo.verbatim_options) (start_world 0)))).
Proof.
  split.
  - pose proof (json_option_selects_encoding Demo.host Demo.this "POST" Demo.path
                  Demo.widget_options Demo.widget 0 0 []) as [H _].
    apply (proj1 (H eq_refl eq_refl) eq_refl (VStr "{id:1,name:bolt}") 1). reflexivity.
  - pose proof (json_option_selects_encoding Demo.host Demo.this "POST" Demo.path
                  Demo.verbatim_options (VStr "raw") 0 0 []) as [_ H].
    apply (proj1 (proj2 (H eq_refl eq_refl))). reflexivity.
Defined.

(** [checkGetError('/missing', 404)] on the demo service. *)
Lemma failure_assertions_classify_witness :
  context Demo.test = Some Demo.this
  /\ get (httpError Demo.this) (ToString (VNum 404)) = VRegExp "Response code 404" "u"
  /\ judges "Response code 404"
       (fst (Part000.json Demo.host Demo.this Demo.missing VUndefined (start_world 0)))
       (trace (snd (Part000.checkGetError Demo.host Demo.test Demo.missing (VNum 404)
                      VUndefined VUndefined (start_world 0)))).
Proof.
  split; [reflexivity|]. split; [reflexivity|].
  apply (failure_assertions_classify Demo.host Demo.test Demo.this Demo.missing Demo.widget
           (VNum 404) VUndefined VUndefined "Response code 404" "u" 0); reflexivity.
Defined.


(** A post without a [cache] option, and [json] without options. *)
Lemma body_path_drops_default_cache_witness :
  truthy (get Demo.widget_options "cache") = false
  /\ own_props VUndefined !! "cache" = None
  /\ no_cache (trace (snd (Part000._withBody Demo.host Demo.this "POST" Demo.path
                             (VObject Demo.widget_options) (start_world 0))))
  /\ inherits_cache Demo.this
       (trace (snd (Part000.json Demo.host Demo.this Demo.path VUndefined (start_world 0)))).
Proof.
  do 2 (split; [reflexivity|]).
  pose proof (body_path_drops_default_cache Demo.host Demo.this "POST" Demo.path VUndefined
                Demo.widget_options 0) as (H1 & _ & H3).
  split; [apply (H1 eq_refl) | apply (H3 eq_refl)].
Defined.

(** The assertions [setup] of part_000 registers on the demo host. *)
Lemma default_message_and_extra_witness :
  exists tap w',
    Part000.setup Demo.host empty_tap Demo.instance (start_world 0) = (Normal tap, w')
    /\ forall name arity fn,
         (name, arity, fn) ∈ asserts tap ->
         reports_default name arity fn /\ forwards_extra arity fn.
Proof. exact (proj1 (default_message_and_extra Demo.host) Demo.instance 0). Defined.

(** A request the demo service answers with 404, and requests to a service
    that answers with a page: [json] and [post] end with the parse error. *)
Lemma request_errors_propagate_witness :
  parsed_get (Part000.json Demo.host Demo.this Demo.missing VUndefined (start_world 0))
  /\ parsed_get (Part000.json Cluster.garbled Demo.this Demo.path VUndefined (start_world 0))
  /\ parsed_body (VObject Demo.widget_options)
       (Part000.post Cluster.garbled Demo.this Demo.path
          (VObject Demo.widget_options) (start_world 0))
  /\ fst (Part000.json Cluster.garbled Demo.this Demo.path VUndefined (start_world 0))
     = Throw (VError "SyntaxError" "Unexpected token < in JSON at position 0")
  /\ fst (Part000.post Cluster.garbled Demo.this Demo.path
            (VObject Demo.widget_options) (start_world 0))
     = Throw (VError "SyntaxError" "Unexpected token < in JSON at position 0").
Proof.
  pose proof (request_errors_propagate Demo.host Demo.this Demo.missing VUndefined 0)
    as (H1 & _).
  pose proof (request_errors_propagate Cluster.garbled Demo.this Demo.path VUndefined 0)
    as (H2 & _).
  pose proof (request_errors_propagate Cluster.garbled Demo.this Demo.path
                (VObject Demo.widget_options) 0) as (_ & H3 & _).
  split; [exact H1|]. split; [exact H2|]. split; [exact H3|]. split; reflexivity.
Defined.

(** The default message of [checkGet] of index.js is the path alone, so the
    claim on the default message fails for the assertions of index.js. *)
Lemma index_checkGet_default_is_path : ~ default_message_claim (IndexJs.setup Demo.host).
Proof.
  intros H. destruct (H Demo.instance 0) as (tap & w' & Hsetup & Hall).
  destruct (index_setup_asserts Demo.host Demo.instance 0) as (tap' & w'' & Hsetup' & Hasserts).
  rewrite Hsetup in Hsetup'. injection Hsetup' as <- <-.
  rewrite Hasserts in Hall.
  destruct (Hall "checkGet" 2 _ (list_elem_of_here _ _)) as [Hdefault _].
  destruct (Hdefault Demo.test [Demo.path; Demo.widget] 0 eq_refl) as [Hreports _].
  change (Forall (fun r => r = (VStr "GET /widgets/1", VUndefined)) [(Demo.path, VUndefined)])
    in Hreports.
  inversion Hreports as [|? ? Hhead _]. discriminate Hhead.
Qed.

(** The scenarios of the spec on the demo service. *)
Example checkGetError_404_passes :
  passes (trace (snd (Part000.checkGetError Demo.host Demo.test Demo.missing (VNum 404)
                        VUndefined VUndefined (start_world 0)))).
Proof. reflexivity. Qed.

Example checkGetError_200_fails :
  fails (trace (snd (Part000.checkGetError Demo.host Demo.test Demo.path (VNum 404)
                       VUndefined VUndefined (start_world 0)))).
Proof. reflexivity. Qed.

Example checkPostError_wrong_code_fails :
  fails (trace (snd (Part000.checkPostError Demo.host Demo.test Demo.missing Demo.widget
                       (VNum 405) VUndefined VUndefined (start_world 0)))).
Proof. reflexivity. Qed.

Example checkGet_reports_widget :
  calls (trace (snd (Part000.checkGet Demo.host Demo.test Demo.path Demo.widget
                       VUndefined VUndefined (start_world 0))))
  = [Got "http://localhost/widgets/1" (genericGotOptions Demo.this);
     JSONParse (VStr "{id:1,name:bolt}");
     StrictSame Demo.widget Demo.widget (VStr "GET /widgets/1") VUndefined].
Proof. reflexivity. Qed.

Example delete_forwards_options :
  requests (trace (snd (Part000.delete Demo.host Demo.this Demo.path
                          (VObject Demo.verbatim_options) (start_world 0))))
  = [<["method" := VStr "DELETE"]> Demo.verbatim_options ∪ genericGotOptions Demo.this].
Proof. reflexivity. Qed.

Example multipart_ignores_json_false :
  outgoing (trace (snd (Part000.post Demo.host Demo.this Demo.path
                          (VObject (<["json" := VBool false]> Demo.form_options))
                          (start_world 0))))
  = [Invoke "makeForm"; MultipartBuffer "form"; MultipartGetHeaders "form" false;
     Got "http://localhost/widgets/1"
         (<["headers" :=
              VObject (<["x-token" := VStr "abc"]>
                         {["content-type" := VStr "multipart/form-data; boundary=x"]})]>
            (<["body" := VHost "Buffer" 1]>
               (<["json" := VBool false]>
                  (<["method" := VStr "POST"]>
                     (<["timeout" := VNum 10000]>
                        (<["cookieJar" := VHost "CookieJar" 1]> ∅))))))].
Proof. reflexivity. Qed.

(** ** More of the code on the demo host *)

(** A post with a [timeout] of the caller. *)
Lemma other_options_pass_through_witness :
  ("timeout" ∉ ["body"; "headers"; "cache"; "method"])
  /\ Forall (fun request : obj =>
               request !! "timeout"
               = (Cluster.typed_options ∪ genericGotOptions Demo.this) !! "timeout")
       (requests (trace (snd (Part000._withBody Demo.host Demo.this "POST" Demo.path
                                (VObject Cluster.typed_options) (start_world 0))))).
Proof.
  assert ("timeout" ∉ ["body"; "headers"; "cache"; "method"]) as H
      by (compute_done).
  split; [exact H|].
  exact (proj1 (other_options_pass_through Demo.host Demo.this "POST" Demo.path
                  Cluster.typed_options "timeout" 0) H).
Defined.

(** A post and a [json] without options. *)
Lemma missing_options_witness :
  nullish VUndefined = true
  /\ type_error_without_call 0
       (Part000._withBody Demo.host Demo.this "POST" Demo.path VUndefined (start_world 0))
  /\ requests (trace (snd (Part000.json Demo.host Demo.this Demo.path VUndefined
                             (start_world 0))))
     = [genericGotOptions Demo.this].
Proof.
  split; [reflexivity|].
  pose proof (missing_options Demo.host Demo.this "POST" Demo.path VUndefined 0 eq_refl)
    as (H1 & _ & _ & H4 & _).
  by split.
Defined.

(** A post whose headers name [content-type] in lower case. *)
Lemma content_type_is_added_by_exact_name_witness :
  Cluster.typed_options !! "headers"
  = Some (VObject {["content-type" := VStr "text/plain"]})
  /\ json_headers (VObject {["content-type" := VStr "text/plain"]})
       (trace (snd (Part000._withBody Demo.host Demo.this "POST" Demo.path
                      (VObject Cluster.typed_options) (start_world 0)))).
Proof.
  split; [reflexivity|].
  apply (proj1 (content_type_is_added_by_exact_name Demo.host Demo.this "POST" Demo.path
                  Cluster.typed_options (VObject {["content-type" := VStr "text/plain"]})
                  Demo.widget (VStr "{id:1,name:bolt}") 0 0 1 [] eq_refl));
    reflexivity.
Defined.

(** The jar of the demo context, and a context without a jar. *)
Lemma cookie_jar_is_shared_witness :
  genericGotOptions Demo.this !! "cookieJar" = Some (VHost "CookieJar" 1)
  /\ has_method (VHost "CookieJar" 1) "getCookieString" = true
  /\ asks_jar Demo.host (VHost "CookieJar" 1) Demo.path 0
       (Part000.getCookieString Demo.host Demo.this Demo.path (start_world 0))
  /\ carries_jar (VHost "CookieJar" 1)
       (trace (snd (Part000._withBody Demo.host Demo.this "POST" Demo.path
                      (VObject Demo.widget_options) (start_world 0))))
  /\ has_method (get (genericGotOptions Cluster.jarless) "cookieJar") "getCookieString"
     = false
  /\ type_error_without_call 0
       (Part000.getCookieString Demo.host Cluster.jarless Demo.path (start_world 0)).
Proof.
  do 2 (split; [reflexivity|]).
  pose proof (cookie_jar_is_shared Demo.host Demo.this "POST" (VHost "CookieJar" 1)
                Demo.path Demo.path VUndefined Demo.widget_options 0) as [H _].
  destruct (H eq_refl eq_refl) as (H1 & _ & _ & H4).
  split; [exact H1|]. split; [exact (proj1 (H4 eq_refl))|].
  split; [reflexivity|].
  pose proof (cookie_jar_is_shared Demo.host Cluster.jarless "POST" VUndefined
                Demo.path Demo.path VUndefined Demo.widget_options 0) as [_ H'].
  exact (proj1 (H' eq_refl)).
Defined.



(** [checkGet] of the widget and [checkPost] to a missing path. *)
Lemma success_assertions_report_outcome_witness :
  context Demo.test = Some Demo.this
  /\ success_run Demo.host
       (fun found => StrictSame found Demo.widget (VStr "GET /widgets/1") VUndefined)
       (VStr "GET /widgets/1") VUndefined
       (Part000.json Demo.host Demo.this Demo.path VUndefined (start_world 0))
       (Part000.checkGet Demo.host Demo.test Demo.path Demo.widget VUndefined VUndefined
          (start_world 0))
  /\ success_run Demo.host
       (fun found => StrictSame found Demo.widget (VStr "POST /missing") VUndefined)
       (VStr "POST /missing") VUndefined
       (Part000.post Demo.host Demo.this Demo.missing (VObject {["body" := Demo.widget]})
          (start_world 0))
       (Part000.checkPost Demo.host Demo.test Demo.missing Demo.widget Demo.widget
          VUndefined VUndefined (start_world 0)).
Proof.
  split; [reflexivity|].
  pose proof (success_assertions_report_outcome Demo.host Demo.test Demo.this Demo.path
                Demo.widget Demo.widget VUndefined VUndefined 0 eq_refl) as (H1 & _).
  pose proof (success_assertions_report_outcome Demo.host Demo.test Demo.this Demo.missing
                Demo.widget Demo.widget VUndefined VUndefined 0 eq_refl)
    as (_ & _ & H3 & _).
  split; [exact H1 | exact H3].
Defined.

(** Assertions on a test case without a context. *)
Lemma assertions_without_context_witness :
  context Cluster.bare = None
  /\ reports_type_error Demo.host (VStr "GET /widgets/1") VUndefined 0
       (Part000.checkGet Demo.host Cluster.bare Demo.path Demo.widget VUndefined VUndefined
          (start_world 0))
  /\ type_error_without_call 0
       (Part000.checkGetError Demo.host Cluster.bare Demo.path (VNum 404) VUndefined
          VUndefined (start_world 0)).
Proof.
  split; [reflexivity|].
  pose proof (assertions_without_context Demo.host Cluster.bare Demo.path Demo.widget
                Demo.widget (VNum 404) VUndefined VUndefined VUndefined 0 eq_refl)
    as ((H1 & _) & _ & H2 & _).
  split; [exact H1 | exact H2].
Defined.

(** [apiRejects('/missing', undefined, 404)] on the demo service. *)
Lemma apiRejects_classifies_witness :
  context Demo.test = Some Demo.this
  /\ get (httpError Demo.this) (ToString (VNum 404)) = VRegExp "Response code 404" "u"
  /\ judges "Response code 404"
       (fst (Part000.json Demo.host Demo.this Demo.missing (VObject ∅) (start_world 0)))
       (trace (snd (Part000.apiRejects Demo.host Demo.test Demo.missing VUndefined
                      (VNum 404) VUndefined VUndefined (start_world 0))))
  /\ requests (trace (snd (Part000.apiRejects Demo.host Demo.test Demo.missing VUndefined
                             (VNum 404) VUndefined VUndefined (start_world 0))))
     = [genericGotOptions Demo.this].
Proof.
  do 2 (split; [reflexivity|]).
  pose proof (apiRejects_classifies Demo.host Demo.test Demo.this Demo.missing VUndefined
                (VNum 404) VUndefined VUndefined "Response code 404" "u" 0
                eq_refl eq_refl) as (H1 & _ & H3).
  split; [exact H1 | exact (H3 eq_refl)].
Defined.

(** [checkGetError('/missing', 500)]: the class has no pattern for 500;
    and [checkGetError('/missing', 'constructor')]. *)
Lemma pattern_is_looked_up_by_key_witness :
  context Demo.test = Some Demo.this
  /\ httpError Demo.this = httpError_init
  /\ (ToString (VNum 500) ∉ ["400"; "404"; "405"])
  /\ (ToString (VNum 500) ∉ "__proto__" :: object_methods)
  /\ expects VUndefined
       (trace (snd (Part000.checkGetError Demo.host Demo.test Demo.missing (VNum 500)
                      VUndefined VUndefined (start_world 0))))
  /\ expects (VFunction "Object")
       (trace (snd (Part000.checkGetError Demo.host Demo.test Demo.missing
                      (VStr "constructor") VUndefined VUndefined (start_world 0)))).
Proof.
  do 2 (split; [reflexivity|]).
  assert (ToString (VNum 500) ∉ ["400"; "404"; "405"]) as Hcode by compute_done.
  assert (ToString (VNum 500) ∉ "__proto__" :: object_methods) as Hname by compute_done.
  split; [exact Hcode|]. split; [exact Hname|].
  pose proof (pattern_is_looked_up_by_key Demo.host Demo.test Demo.this Demo.missing
                Demo.widget VUndefined (VNum 500) VUndefined VUndefined 0
                eq_refl eq_refl) as H.
  cbv zeta in H. destruct H as (H1 & _ & _ & _ & _ & _ & _ & H8).
  rewrite (H8 Hcode Hname) in H1.
  split; [exact H1|].
  exact (proj1 (pattern_is_looked_up_by_key Demo.host Demo.test Demo.this Demo.missing
                  Demo.widget VUndefined (VStr "constructor") VUndefined VUndefined 0
                  eq_refl eq_refl)).
Defined.

(** [readdir('logs', 'utf8')] on the cluster, and [readFile] on the demo
    context, which has no default instance. *)
Lemma path_helpers_resolve_first_witness :
  has_method (defaultInstance Cluster.this) "runPath" = true
  /\ Files.resolved_read Cluster.files Cluster.web_service (VStr "logs") [VStr "utf8"]
       Files.Readdir 0
       (Files.readdir Cluster.files Cluster.this (VStr "logs") [VStr "utf8"] 0)
  /\ has_method (defaultInstance Demo.this) "runPath" = false
  /\ exists message,
       Files.readFile Cluster.files Demo.this (VStr "notes.txt") [] 0
       = (Throw (VError "TypeError" message), [], 0).
Proof.
  pose proof (path_helpers_resolve_first Cluster.files Cluster.this (VStr "logs")
                [VStr "utf8"] [] 0) as (H1 & _).
  pose proof (path_helpers_resolve_first Cluster.files Demo.this (VStr "notes.txt")
                [] [] 0) as (_ & H3).
  split; [reflexivity|]. split; [exact (proj1 (proj2 (H1 eq_refl)))|].
  split; [reflexivity|].
  apply (H3 eq_refl). do 2 apply list_elem_of_further. apply list_elem_of_here.
Defined.

(** The constructor of part_000 on the cluster builds the context
    [Cluster.this]. *)
Example cluster_context_is_built :
  fst (Part000.constructor Demo.host Cluster.instance (start_world 0)) = Normal Cluster.this.
Proof. reflexivity. Qed.

(** Numbers in a path, a message or a key: in full up to 2^53, by their
    shortest digits above, in exponent form from 10^21 on. *)
Example numbers_as_strings :
  ToString (VNum 404) = "404"
  /\ ToString (VNum (-12)) = "-12"
  /\ ToString (VNum (2 ^ 60)) = "1152921504606847000"
  /\ ToString (VNum (10 ^ 21)) = "1e+21"
  /\ ToString (VNum (2 ^ 70)) = "1.1805916207174113e+21"
  /\ url_of Demo.this (VNum (10 ^ 21)) = "http://localhost1e+21".
Proof. repeat split; vm_compute; reflexivity. Qed.

(** A key the map inherits, and one it does not have. *)
Example inherited_key :
  member httpError_init "toString" = VFunction "toString"
  /\ member httpError_init "constructor" = VFunction "Object"
  /\ member httpError_init "500" = VUndefined.
Proof. repeat split; reflexivity. Qed.
